(** * aws-lambda-adapter: the event/request/response translation layer

    A shallow embedding of package [awseventadapter]: [AdapterRequest]
    with [ToRequest], [StripBasePath] and [Proxy], and [AdapterResponse]
    with [NewAdapterResponse] and its two accessors.

    Go values are modelled as follows.
    - a Go [string] is a [string] (a sequence of 8-bit characters, as in Go);
      a [[]byte] is a [list byte]; [[]byte(s)] and [string(b)] are
      [String.list_byte_of_string] and [String.string_of_list_byte];
    - a Go [map[string]T] is a [gmap string T]; a [range] loop over a map
      visits the keys in an order chosen by the runtime, which the model
      takes as an explicit list of keys (see [range_order]);
    - a Go [(T, error)] result is a pair of options, so that a result and an
      error returned together are representable;
    - a method with a pointer receiver that assigns to a field returns the
      updated receiver next to its results.

    The first part models the functions of the Go standard library that the
    adapter calls, the second part is the adapter itself, and the third
    part states and proves its properties. *)

From Stdlib Require Import ZArith Strings.Ascii Strings.String Strings.Byte Lists.List Lia Bool.
From stdpp Require Import base option list gmap strings.

Local Open Scope Z_scope.

(** ** Errors *)

(** The error values that flow through the adapter. *)
Inductive error : Type :=
| CorruptInputError (offset : Z)          (* encoding/base64 *)
| InvalidMethod (method : string)         (* net/http: invalid method %q *)
| UrlError (op url : string) (msg : string) (* *url.Error *)
| ReadError (msg : string)                (* an io.Reader failure *)
| Wrap (cause : error) (message : string). (* github.com/pkg/errors.Wrap *)

(** Go's [(T, error)] pair of results. *)
Definition result (T : Type) : Type := (option T * option error)%type.

Definition Ok {T} (x : T) : result T := (Some x, None).
Definition Fail {T} (e : error) : result T := (None, Some e).

(** How a call ends: it returns, it waits forever, or it panics. *)
Inductive outcome (T : Type) : Type :=
| returns (v : T)
| blocks
| panics.
Arguments returns {T} v.
Arguments blocks {T}.
Arguments panics {T}.

(** ** Bytes *)

Definition u8 (b : byte) : Z := Z.of_N (Byte.to_N b).

(** [byte(v)]: conversion of an unsigned integer to [byte] keeps the low
    eight bits. *)
Definition to_byte (v : Z) : byte :=
  match Byte.of_N (Z.to_N (Z.land v 255)) with
  | Some b => b
  | None => x00
  end.

Definition code (c : ascii) : Z := Z.of_N (N_of_ascii c).

(** ** package strings *)

Module Strings.

(** [strings.HasPrefix(s, prefix)]. *)
Definition HasPrefix (s prefix : string) : bool := String.prefix prefix s.

(** [strings.HasSuffix(s, suffix)]:
    [len(s) >= len(suffix) && s[len(s)-len(suffix):] == suffix]. *)
Definition HasSuffix (s suffix : string) : bool :=
  (String.length suffix <=? String.length s)%nat &&
  String.eqb
    (String.substring (String.length s - String.length suffix)
                      (String.length suffix) s)
    suffix.

(** [strings.Index(s, substr)], for the first occurrence. *)
Fixpoint Index (s substr : string) : option nat :=
  if String.prefix substr s then Some 0%nat
  else match s with
       | EmptyString => None
       | String _ s' => S <$> Index s' substr
       end.

(** [s[n:]]. *)
Fixpoint drop (n : nat) (s : string) : string :=
  match n, s with
  | O, _ => s
  | S n', String _ s' => drop n' s'
  | S _, EmptyString => EmptyString
  end.

(** [s[:n]]. *)
Fixpoint take (n : nat) (s : string) : string :=
  match n, s with
  | O, _ => EmptyString
  | S n', String c s' => String c (take n' s')
  | S _, EmptyString => EmptyString
  end.

(** [strings.Replace(s, old, new, 1)]: the first occurrence of [old]
    in [s], if any, is replaced by [new]. An empty [old] matches at
    the beginning of the string. *)
Definition Replace1 (s old new : string) : string :=
  if String.eqb old new then s
  else match Index s old with
       | None => s
       | Some i => take i s +:+ new +:+ drop (i + String.length old) s
       end.

Definition contains (cutset : string) (c : ascii) : bool :=
  match String.index 0 (String c EmptyString) cutset with
  | Some _ => true
  | None => false
  end.

Fixpoint trimLeft (s cutset : string) : string :=
  match s with
  | EmptyString => EmptyString
  | String c s' => if contains cutset c then trimLeft s' cutset else s
  end.

(** Drops the trailing characters that belong to [cutset]. *)
Fixpoint trimRight (s cutset : string) : string :=
  match s with
  | EmptyString => EmptyString
  | String c s' =>
      match trimRight s' cutset with
      | EmptyString => if contains cutset c then EmptyString
                       else String c EmptyString
      | t => String c t
      end
  end.

(** [strings.Trim(s, cutset)] for a cutset of ASCII characters, where
    Go compares byte by byte. *)
Definition Trim (s cutset : string) : string :=
  trimLeft (trimRight s cutset) cutset.

Definition isLower (c : ascii) : bool := (97 <=? code c) && (code c <=? 122).
Definition isUpper (c : ascii) : bool := (65 <=? code c) && (code c <=? 90).

Definition upperByte (c : ascii) : ascii :=
  if isLower c then ascii_of_N (Z.to_N (code c - 32)) else c.
Definition lowerByte (c : ascii) : ascii :=
  if isUpper c then ascii_of_N (Z.to_N (code c + 32)) else c.

Fixpoint map (f : ascii → ascii) (s : string) : string :=
  match s with
  | EmptyString => EmptyString
  | String c s' => String (f c) (map f s')
  end.

Fixpoint forallb (p : ascii → bool) (s : string) : bool :=
  match s with
  | EmptyString => true
  | String c s' => p c && forallb p s'
  end.

(** No byte of [s] is [>= utf8.RuneSelf]. *)
Definition isASCII (s : string) : bool := forallb (fun c => code c <? 128) s.

(** [strings.ToUpper(s)]. Go upper-cases an ASCII-only string byte by
    byte; any other string goes through [strings.Map(unicode.ToUpper, s)],
    which depends on the Unicode case tables and is a parameter here. *)
Definition ToUpper (unicodeUpper : string → string) (s : string) : string :=
  if isASCII s then map upperByte s else unicodeUpper s.

End Strings.

(** ** package unicode/utf8 *)

Module Utf8.

(** The continuation-byte ranges of [acceptRanges], indexed by the high
    nibble of the entry of [first]. *)
Definition acceptRange (x : Z) : Z * Z :=
  match Z.shiftr x 4 with
  | 0 => (128, 191)   (* locb, hicb *)
  | 1 => (160, 191)
  | 2 => (128, 159)
  | 3 => (144, 191)
  | 4 => (128, 143)
  | _ => (255, 0)     (* never consulted *)
  end.

Definition xx : Z := 241. (* 0xF1: illegal starter byte *)

(** The table [first]: information about the first byte of an encoding.
    The low three bits give the size, the high nibble the accept range. *)
Definition first (b : Z) : Z :=
  if b <? 128 then 240          (* as: ASCII, size 1 *)
  else if b <? 194 then xx      (* 0x80-0xC1 *)
  else if b <? 224 then 2       (* s1: 0xC2-0xDF *)
  else if b =? 224 then 19      (* s2: 0xE0 *)
  else if b <? 237 then 3       (* s3: 0xE1-0xEC *)
  else if b =? 237 then 35      (* s4: 0xED *)
  else if b <? 240 then 3       (* s3: 0xEE-0xEF *)
  else if b =? 240 then 52      (* s5: 0xF0 *)
  else if b <? 244 then 4       (* s6: 0xF1-0xF3 *)
  else if b =? 244 then 68      (* s7: 0xF4 *)
  else xx.                      (* 0xF5-0xFF *)

Definition inRange (r : Z * Z) (c : byte) : bool :=
  (fst r <=? u8 c) && (u8 c <=? snd r).

Definition cont : Z * Z := (128, 191). (* locb, hicb *)

(** [utf8.Valid(p)]: [p] consists entirely of valid UTF-8-encoded runes. *)
Fixpoint Valid (p : list byte) : bool :=
  match p with
  | [] => true
  | pi :: rest =>
      if u8 pi <? 128 then Valid rest
      else
        let x := first (u8 pi) in
        if x =? xx then false
        else
          let accept := acceptRange x in
          match Z.land x 7, rest with
          | 2, c1 :: rest' => inRange accept c1 && Valid rest'
          | 3, c1 :: c2 :: rest' =>
              inRange accept c1 && inRange cont c2 && Valid rest'
          | 4, c1 :: c2 :: c3 :: rest' =>
              inRange accept c1 && inRange cont c2 && inRange cont c3
              && Valid rest'
          | _, _ => false  (* short input *)
          end
  end.

End Utf8.

(** ** package encoding/base64, [StdEncoding] *)

Module Base64.

(** [encodeStd], the alphabet of the standard encoding. *)
Definition encodeStd : list byte :=
  String.list_byte_of_string
    "ABCDEFGHIJKLMNOPQRSTUVWXYZabcdefghijklmnopqrstuvwxyz0123456789+/".

Definition padChar : byte := "="%byte.

(** [enc.encode[v]]. *)
Definition encode (v : Z) : byte := nth (Z.to_nat v) encodeStd x00.

Fixpoint indexOf (c : byte) (l : list byte) (i : Z) : Z :=
  match l with
  | [] => 255
  | x :: l' => if Byte.eqb x c then i else indexOf c l' (i + 1)
  end.

(** [enc.decodeMap[c]]: the position of [c] in the alphabet, [0xff] for
    a byte outside the alphabet. *)
Definition decodeMap (c : byte) : Z := indexOf c encodeStd 0.

(** [Encoding.Encode]: three bytes become four characters; a remainder
    of one or two bytes is padded. *)
Fixpoint Encode (src : list byte) : list byte :=
  match src with
  | [] => []
  | [b0] =>
      let val := Z.shiftl (u8 b0) 16 in
      [encode (Z.land (Z.shiftr val 18) 63);
       encode (Z.land (Z.shiftr val 12) 63);
       padChar; padChar]
  | [b0; b1] =>
      let val := Z.lor (Z.shiftl (u8 b0) 16) (Z.shiftl (u8 b1) 8) in
      [encode (Z.land (Z.shiftr val 18) 63);
       encode (Z.land (Z.shiftr val 12) 63);
       encode (Z.land (Z.shiftr val 6) 63);
       padChar]
  | b0 :: b1 :: b2 :: rest =>
      let val := Z.lor (Z.lor (Z.shiftl (u8 b0) 16) (Z.shiftl (u8 b1) 8))
                       (u8 b2) in
      encode (Z.land (Z.shiftr val 18) 63)
      :: encode (Z.land (Z.shiftr val 12) 63)
      :: encode (Z.land (Z.shiftr val 6) 63)
      :: encode (Z.land val 63)
      :: Encode rest
  end.

(** [Encoding.EncodeToString]. *)
Definition EncodeToString (src : list byte) : string :=
  String.string_of_list_byte (Encode src).

Definition isNewline (c : byte) : bool :=
  Byte.eqb c "010"%byte || Byte.eqb c "013"%byte.

(** [for si < len(src) && (src[si] == '\n' || src[si] == '\r') { si++ }] *)
Fixpoint skipNewlines (src : list byte) (si : Z) : list byte * Z :=
  match src with
  | c :: rest => if isNewline c then skipNewlines rest (si + 1) else (src, si)
  | [] => ([], si)
  end.

(** The value assembled from the sextets of a quantum, and its bytes. *)
Definition assemble (d0 d1 d2 d3 : Z) : Z :=
  Z.lor (Z.lor (Z.lor (Z.shiftl d0 18) (Z.shiftl d1 12)) (Z.shiftl d2 6)) d3.

Definition quantumBytes (dlen : nat) (d0 d1 d2 d3 : Z) : list byte :=
  let val := assemble d0 d1 d2 d3 in
  take (dlen - 1)
    [to_byte (Z.shiftr val 16); to_byte (Z.shiftr val 8); to_byte val].

(** After the padding of the last quantum only newlines may follow. *)
Definition endOfInput (src : list byte) (si : Z) (out : list byte)
  : list byte + error :=
  match skipNewlines src si with
  | ([], _) => inl out
  | (_ :: _, si') => inr (CorruptInputError si')  (* trailing garbage *)
  end.

(** [Encoding.Decode], following [decodeQuantum]: [src] is what remains
    of the input at offset [si], [dbuf] the sextets gathered so far for
    the current quantum. The bytes that Go returns next to an error are
    dropped: every caller here discards them. *)
Fixpoint decode (src : list byte) (si : Z) (dbuf : list Z)
  : list byte + error :=
  match src with
  | [] =>
      match dbuf with
      | [] => inl []
      | _ => inr (CorruptInputError (si - Z.of_nat (length dbuf)))
      end
  | c :: rest =>
      let out := decodeMap c in
      if negb (out =? 255) then
        match dbuf with
        | [d0; d1; d2] =>
            match decode rest (si + 1) [] with
            | inl bs => inl (quantumBytes 4 d0 d1 d2 out ++ bs)
            | inr e => inr e
            end
        | _ => decode rest (si + 1) (dbuf ++ [out])
        end
      else if isNewline c then decode rest (si + 1) dbuf
      else if negb (Byte.eqb c padChar) then inr (CorruptInputError si)
      else
        match dbuf with
        | [d0; d1] =>
            (* "==" is expected, the first "=" is already consumed *)
            match skipNewlines rest (si + 1) with
            | ([], si1) => inr (CorruptInputError si1) (* not enough padding *)
            | (c2 :: rest2, si1) =>
                if negb (Byte.eqb c2 padChar)
                then inr (CorruptInputError (si1 - 1)) (* incorrect padding *)
                else endOfInput rest2 (si1 + 1) (quantumBytes 2 d0 d1 0 0)
            end
        | [d0; d1; d2] =>
            endOfInput rest (si + 1) (quantumBytes 3 d0 d1 d2 0)
        | _ => inr (CorruptInputError si) (* incorrect padding *)
        end
  end.

(** [Encoding.DecodeString]. *)
Definition DecodeString (s : string) : list byte + error :=
  decode (String.list_byte_of_string s) 0 [].

End Base64.

(** ** package net/url *)

Module Url.

Definition isAlnum (c : ascii) : bool :=
  Strings.isLower c || Strings.isUpper c
  || ((48 <=? code c) && (code c <=? 57)).

(** [shouldEscape(c, encodeQueryComponent)]: letters, digits and the
    unreserved marks [-_.~] are kept, every other byte is escaped. *)
Definition shouldEscape (c : ascii) : bool :=
  if isAlnum c then false
  else if Strings.contains "-_.~" c then false
  else true.

Definition upperhex (v : Z) : ascii :=
  match String.get (Z.to_nat v) "0123456789ABCDEF" with
  | Some c => c
  | None => "0"%char
  end.

(** [escape(s, encodeQueryComponent)]. *)
Fixpoint escape (s : string) : string :=
  match s with
  | EmptyString => EmptyString
  | String c s' =>
      if Ascii.eqb c " " then String "+" (escape s')
      else if shouldEscape c then
        String "%" (String (upperhex (Z.shiftr (code c) 4))
                      (String (upperhex (Z.land (code c) 15)) (escape s')))
      else String c (escape s')
  end.

(** [url.QueryEscape(s)]. *)
Definition QueryEscape (s : string) : string := escape s.

End Url.

(** ** package net/textproto *)

Module Textproto.

(** [validHeaderFieldByte]: the token characters of RFC 7230. *)
Definition validHeaderFieldByte (c : ascii) : bool :=
  Url.isAlnum c || Strings.contains "!#$%&'*+-.^_`|~" c.

(** The second loop of [canonicalMIMEHeaderKey]: first letter upper case
    and upper case after each dash, lower case elsewhere. *)
Fixpoint canonical (upper : bool) (a : string) : string :=
  match a with
  | EmptyString => EmptyString
  | String c a' =>
      let c' := if upper then Strings.upperByte c else Strings.lowerByte c in
      String c' (canonical (Ascii.eqb c' "-") a')
  end.

(** [textproto.CanonicalMIMEHeaderKey(s)]: a key that contains a space or
    an invalid header field byte is returned without modification. *)
Definition CanonicalMIMEHeaderKey (s : string) : string :=
  if Strings.forallb validHeaderFieldByte s then canonical true s else s.

End Textproto.

(** ** What lies outside the program *)

(** The adapter is generic in the values it only passes along, and two
    library functions are left abstract: the Unicode branch of
    [strings.ToUpper] and the parser of [net/url], of which only the
    verdict on a raw URL matters here. *)
Class Platform : Type := {
  Any : Type;                       (* values of type [interface{}] *)
  Ctx : Type;                       (* non-nil values of [context.Context] *)
  Background : Ctx;                 (* [context.Background()] *)
  unicodeUpper : string → string;   (* [strings.Map(unicode.ToUpper, s)] *)
  urlParse : string → option error; (* the error of [url.Parse], if any *)
}.

(** ** package net/http *)

Module Http.

(** [http.Header], a [map[string][]string]. *)
Abbreviation Header := (gmap string (list string)).

(** [h[key]]: the values stored under [key], none for a missing key. *)
Definition values (h : Header) (key : string) : list string :=
  default [] (h !! key).

(** [Header.Add(key, value)]: appends to the values of the canonical
    form of the key. *)
Definition Add (h : Header) (key value : string) : Header :=
  let key := Textproto.CanonicalMIMEHeaderKey key in
  <[key := values h key ++ [value]]> h.

(** The fields of [http.Request] that the adapter sets. [RawURL] is the
    text that [url.Parse] turned into the request's [URL]. *)
Module Request.
Record t `{Platform} : Type := mk {
  Method : string;
  RawURL : string;
  Header : gmap string (list string);
  Body : list byte;
  ContentLength : Z;
  ctx : Ctx;
}.
End Request.

(** [validMethod]: a non-empty sequence of token characters. *)
Definition validMethod (method : string) : bool :=
  (0 <? String.length method)%nat
  && Strings.forallb Textproto.validHeaderFieldByte method.

(** [http.NewRequest(method, url, bytes.NewReader(body))], which returns
    either a request or an error. *)
Definition NewRequest `{Platform} (method url : string) (body : list byte)
  : Request.t + error :=
  let method := if String.eqb method "" then "GET" else method in
  if negb (validMethod method) then inr (InvalidMethod method)
  else match urlParse url with
       | Some err => inr err
       | None =>
           inl {| Request.Method := method;
                 Request.RawURL := url;
                 Request.Header := ∅;
                 Request.Body := body;
                 Request.ContentLength := Z.of_nat (length body);
                 Request.ctx := Background |}
       end.

(** [r.Header = h], for the in-place updates of the request's header. *)
Definition setHeader `{Platform} (r : Request.t) (h : gmap string (list string))
  : Request.t :=
  {| Request.Method := Request.Method r;
     Request.RawURL := Request.RawURL r;
     Request.Header := h;
     Request.Body := Request.Body r;
     Request.ContentLength := Request.ContentLength r;
     Request.ctx := Request.ctx r |}.

(** [Request.WithContext(ctx)]: a copy of the request with its context
    changed. *)
Definition WithContext `{Platform} (r : Request.t) (c : Ctx) : Request.t :=
  {| Request.Method := Request.Method r;
     Request.RawURL := Request.RawURL r;
     Request.Header := Request.Header r;
     Request.Body := Request.Body r;
     Request.ContentLength := Request.ContentLength r;
     Request.ctx := c |}.

(** An [io.ReadCloser]: the bytes it yields, and the error that ends the
    stream when it does not end with [io.EOF]. *)
Record ReadCloser : Type := reader {
  data : list byte;
  failure : option error;
}.

(** [ioutil.ReadAll(r)]. *)
Definition ReadAll (r : ReadCloser) : list byte * option error :=
  (data r, failure r).

(** The fields of [http.Response] that the adapter reads. *)
Module Response.
Record t : Type := mk {
  StatusCode : Z;
  Header : gmap string (list string);
  Body : ReadCloser;
}.
End Response.

End Http.

(** ** package net/http/httptest *)

Module Httptest.

(** [httptest.ResponseRecorder]. *)
Record ResponseRecorder : Type := mkRecorder {
  Code : Z;
  HeaderMap : gmap string (list string);
  Body : option (list byte);   (* [*bytes.Buffer], possibly nil *)
  Flushed : bool;
  snapHeader : option (gmap string (list string));
  wroteHeader : bool;
}.

(** [httptest.NewRecorder()]. *)
Definition NewRecorder : ResponseRecorder :=
  {| Code := 200; HeaderMap := ∅; Body := Some []; Flushed := false;
     snapHeader := None; wroteHeader := false |}.

(** [checkWriteHeaderCode(code)] panics unless the code has three digits;
    this is whether it returns. *)
Definition checkWriteHeaderCode (code : Z) : bool :=
  negb ((code <? 100) || (999 <? code)).

(** [rw.WriteHeader(code)]: later calls do nothing; the first call panics on
    a code that [checkWriteHeaderCode] refuses, and otherwise fixes the code
    and takes a snapshot of the headers. *)
Definition WriteHeader (rw : ResponseRecorder) (code : Z)
  : outcome ResponseRecorder :=
  if wroteHeader rw then returns rw
  else if checkWriteHeaderCode code then
    returns {| Code := code; HeaderMap := HeaderMap rw; Body := Body rw;
               Flushed := Flushed rw; snapHeader := Some (HeaderMap rw);
               wroteHeader := true |}
  else panics.

(** [rw.Flush()]: writes the header with code 200 if none was written,
    which returns, since 200 has three digits. *)
Definition Flush (rw : ResponseRecorder) : ResponseRecorder :=
  let rw :=
    if wroteHeader rw then rw
    else match WriteHeader rw 200 with
         | returns rw => rw
         | blocks | panics => rw
         end in
  {| Code := Code rw; HeaderMap := HeaderMap rw; Body := Body rw;
     Flushed := true; snapHeader := snapHeader rw;
     wroteHeader := wroteHeader rw |}.

(** [rw.Result()]: the response generated by the handler. Its body is an
    in-memory reader, which cannot fail. *)
Definition Result (rw : ResponseRecorder) : Http.Response.t :=
  {| Http.Response.StatusCode := if Code rw =? 0 then 200 else Code rw;
     Http.Response.Header := default (HeaderMap rw) (snapHeader rw);
     Http.Response.Body :=
       {| Http.data := default [] (Body rw); Http.failure := None |} |}.

End Httptest.

(** ** package github.com/aws/aws-lambda-go/events *)

Module Events.

Module APIGatewayProxyResponse.
Record t : Type := mk {
  StatusCode : Z;
  Headers : gmap string string;
  MultiValueHeaders : gmap string (list string);
  Body : string;
  IsBase64Encoded : bool;
}.
End APIGatewayProxyResponse.

Module ALBTargetGroupResponse.
Record t : Type := mk {
  StatusCode : Z;
  StatusDescription : string;
  Headers : gmap string string;
  MultiValueHeaders : gmap string (list string);
  Body : string;
  IsBase64Encoded : bool;
}.
End ALBTargetGroupResponse.

End Events.

(** * package awseventadapter *)

Definition CustomHostVariable : string := "GO_API_HOST".
Definition DefaultServerAddress : string := "https://aws-serverless-go-api.com".

(** The process environment read by [os.LookupEnv]. *)
Abbreviation Env := (gmap string string).

(** ** Iteration over maps *)

(** The keys of a map in the order in which one [range] loop visits them.
    Go leaves the order unspecified; any permutation of the keys is a
    possible order. *)
Definition range_order {V} (m : gmap string V) (keys : list string) : Prop :=
  keys ≡ₚ (map_to_list m).*1.

(** The orders taken by the three [range] loops of one call of [ToRequest]. *)
Record Schedule : Type := mkSchedule {
  multiQueryKeys : list string;
  queryKeys : list string;
  headerKeys : list string;
}.

(** A channel of [struct{}] on which nothing is ever sent. *)
Inductive chan : Type := open | closed.

(** [<-ch]: a receive on a closed channel returns at once; on an open
    channel without sender it blocks forever, which is [None]. *)
Definition recv (ch : chan) : option unit :=
  match ch with
  | closed => Some tt
  | open => None
  end.

(** An [http.Handler]: [ServeHTTP(w, r)] acts on the recorder it is given;
    it may return, never return, or panic. *)
Definition Handler `{Platform} : Type :=
  Http.Request.t → Httptest.ResponseRecorder →
  outcome Httptest.ResponseRecorder.

(** [requestDoneHandler(h, ch)]: runs [h]; the deferred [close(ch)] runs
    when [h] returns or panics, and never when [h] does not come back. *)
Definition requestDoneHandler `{Platform} (h : Handler)
  (r : Http.Request.t) (w : Httptest.ResponseRecorder) (ch : chan)
  : outcome Httptest.ResponseRecorder * chan :=
  match h r w with
  | returns w => (returns w, closed)
  | panics => (panics, closed)
  | blocks => (blocks, ch)
  end.

(** ** AdapterResponse *)

Module AdapterResponse.

Record t : Type := mk {
  StatusCode : Z;
  StatusDescription : string;
  Headers : gmap string string;
  MultiValueHeaders : gmap string (list string);
  Body : string;
  IsBase64Encoded : bool;
}.

(** [NewAdapterResponse(r)]. *)
Definition NewAdapterResponse (r : Http.Response.t) : result t :=
  match Http.ReadAll (Http.Response.Body r) with
  | (_, Some err) => Fail (Wrap err "Unable to read response body")
  | (rb, None) =>
      let (output, isBase64) :=
        if Utf8.Valid rb then (String.string_of_list_byte rb, false)
        else (Base64.EncodeToString rb, true) in
      Ok {| StatusCode := Http.Response.StatusCode r;
            StatusDescription := "";
            Headers := ∅;
            MultiValueHeaders := Http.Response.Header r;
            Body := output;
            IsBase64Encoded := isBase64 |}
  end.

(** [ar.APIGatewayProxyResponse()]. *)
Definition APIGatewayProxyResponse (ar : t)
  : Events.APIGatewayProxyResponse.t * option error :=
  ({| Events.APIGatewayProxyResponse.StatusCode := StatusCode ar;
      Events.APIGatewayProxyResponse.Headers := ∅;
      Events.APIGatewayProxyResponse.MultiValueHeaders := MultiValueHeaders ar;
      Events.APIGatewayProxyResponse.Body := Body ar;
      Events.APIGatewayProxyResponse.IsBase64Encoded := IsBase64Encoded ar |},
   None).

(** [ar.ALBTargetGroupResponse()]: the conversion
    [events.ALBTargetGroupResponse( *ar)] between two struct types with the
    same fields. *)
Definition ALBTargetGroupResponse (ar : t)
  : Events.ALBTargetGroupResponse.t * option error :=
  ({| Events.ALBTargetGroupResponse.StatusCode := StatusCode ar;
      Events.ALBTargetGroupResponse.StatusDescription := StatusDescription ar;
      Events.ALBTargetGroupResponse.Headers := Headers ar;
      Events.ALBTargetGroupResponse.MultiValueHeaders := MultiValueHeaders ar;
      Events.ALBTargetGroupResponse.Body := Body ar;
      Events.ALBTargetGroupResponse.IsBase64Encoded := IsBase64Encoded ar |},
   None).

End AdapterResponse.

(** ** AdapterRequest *)

Module AdapterRequest.

Record t `{Platform} : Type := mk {
  Resource : string;
  Path : string;
  HTTPMethod : string;
  Headers : gmap string string;
  MultiValueHeaders : gmap string (list string);
  QueryStringParameters : gmap string string;
  MultiValueQueryStringParameters : gmap string (list string);
  PathParameters : gmap string string;
  StageVariables : gmap string string;
  RequestContext : Any;
  Body : string;
  IsBase64Encoded : bool;
  stripBasePath : string;
}.

Section methods.
Context `{Platform}.

(** [ar.Path = p]. *)
Definition setPath (ar : t) (p : string) : t :=
  {| Resource := Resource ar; Path := p; HTTPMethod := HTTPMethod ar;
     Headers := Headers ar; MultiValueHeaders := MultiValueHeaders ar;
     QueryStringParameters := QueryStringParameters ar;
     MultiValueQueryStringParameters := MultiValueQueryStringParameters ar;
     PathParameters := PathParameters ar; StageVariables := StageVariables ar;
     RequestContext := RequestContext ar; Body := Body ar;
     IsBase64Encoded := IsBase64Encoded ar;
     stripBasePath := stripBasePath ar |}.

(** [ar.stripBasePath = p]. *)
Definition setStripBasePath (ar : t) (p : string) : t :=
  {| Resource := Resource ar; Path := Path ar; HTTPMethod := HTTPMethod ar;
     Headers := Headers ar; MultiValueHeaders := MultiValueHeaders ar;
     QueryStringParameters := QueryStringParameters ar;
     MultiValueQueryStringParameters := MultiValueQueryStringParameters ar;
     PathParameters := PathParameters ar; StageVariables := StageVariables ar;
     RequestContext := RequestContext ar; Body := Body ar;
     IsBase64Encoded := IsBase64Encoded ar;
     stripBasePath := p |}.

(** The body of both query loops: one more [key=value] pair. *)
Definition addPair (queryString q v : string) : string :=
  (if negb (String.eqb queryString "") then queryString +:+ "&"
   else queryString)
  +:+ Url.QueryEscape q +:+ "=" +:+ Url.QueryEscape v.

(** The loop over [ar.MultiValueQueryStringParameters]. *)
Definition multiValueQueryString (ar : t) (keys : list string) : string :=
  fold_left
    (fun queryString q =>
       fold_left (fun queryString v => addPair queryString q v)
         (default [] (MultiValueQueryStringParameters ar !! q)) queryString)
    keys "".

(** The loop over [ar.QueryStringParameters]. *)
Definition singleValueQueryString (ar : t) (keys : list string) : string :=
  fold_left
    (fun queryString q =>
       addPair queryString q (default "" (QueryStringParameters ar !! q)))
    keys "".

(** The local variable [path] of [ToRequest] after the base path has been
    stripped and the leading slash ensured. *)
Definition resolvedPath (ar : t) : string :=
  let path := Path ar in
  let path :=
    if negb (String.eqb (stripBasePath ar) "")
       && (1 <? String.length (stripBasePath ar))%nat
    then
      if Strings.HasPrefix path (stripBasePath ar)
      then Strings.Replace1 path (stripBasePath ar) ""
      else path
    else path in
  if negb (Strings.HasPrefix path "/") then "/" +:+ path else path.

(** The local variable [path] of [ToRequest] once the server address has
    been put in front. *)
Definition absolutePath (env : Env) (ar : t) : string :=
  let path := resolvedPath ar in
  let serverAddress :=
    match env !! CustomHostVariable with
    | Some customAddress => customAddress
    | None => DefaultServerAddress
    end in
  serverAddress +:+ path.

(** [ar.ToRequest()]. The receiver is returned with the result, since the
    method assigns to [ar.Path]. What the method prints when
    [http.NewRequest] fails is left out. *)
Definition ToRequest (sched : Schedule) (env : Env) (ar : t)
  : t * result Http.Request.t :=
  let decoded :=
    if IsBase64Encoded ar then Base64.DecodeString (Body ar)
    else inl (String.list_byte_of_string (Body ar)) in
  match decoded with
  | inr err => (ar, Fail err)
  | inl decodedBody =>
      let path := absolutePath env ar in
      let ar :=
        if (0 <? size (MultiValueQueryStringParameters ar))%nat then
          let queryString :=
            multiValueQueryString ar (multiQueryKeys sched) in
          setPath ar (Path ar +:+ "?" +:+ queryString)
        else if (0 <? size (QueryStringParameters ar))%nat then
          let queryString := singleValueQueryString ar (queryKeys sched) in
          setPath ar (Path ar +:+ "?" +:+ queryString)
        else ar in
      match Http.NewRequest
              (Strings.ToUpper unicodeUpper (HTTPMethod ar))
              (Path ar)
              decodedBody with
      | inr err => (ar, Fail err)
      | inl httpRequest =>
          let httpRequest :=
            fold_left
              (fun httpRequest h =>
                 Http.setHeader httpRequest
                   (Http.Add (Http.Request.Header httpRequest) h
                      (default "" (Headers ar !! h))))
              (headerKeys sched) httpRequest in
          (ar, Ok httpRequest)
      end
  end.

(** [ar.StripBasePath(basePath)]. *)
Definition StripBasePath (ar : t) (basePath : string) : t * string :=
  if String.eqb (Strings.Trim basePath " ") "" then
    (setStripBasePath ar "", "")
  else
    let newBasePath := basePath in
    let newBasePath :=
      if negb (Strings.HasPrefix newBasePath "/") then "/" +:+ newBasePath
      else newBasePath in
    let newBasePath :=
      if Strings.HasSuffix newBasePath "/"
      then Strings.take (String.length newBasePath - 1) newBasePath
      else newBasePath in
    (setStripBasePath ar newBasePath, newBasePath).

(** [ar.Proxy(ctx, handler)], with the receiver as [ToRequest] leaves it. *)
Definition Proxy (sched : Schedule) (env : Env) (ar : t) (c : Ctx)
  (handler : Handler) : outcome (t * result AdapterResponse.t) :=
  match ToRequest sched env ar with
  | (ar, (_, Some err)) =>
      returns
        (ar, Fail (Wrap err "Unable to convert AdapterRequest to http.Request"))
  | (ar, (None, None)) => panics  (* [WithContext] on a nil request *)
  | (ar, (Some httpRequest, None)) =>
      let httpRequest := Http.WithContext httpRequest c in
      let ch := open in
      let w := Httptest.NewRecorder in
      match requestDoneHandler handler httpRequest w ch with
      | (blocks, _) => blocks
      | (panics, _) => panics
      | (returns w, ch) =>
      match recv ch with
      | None => blocks
      | Some _ =>
          let w := Httptest.Flush w in
          let resp := Httptest.Result w in
          match AdapterResponse.NewAdapterResponse resp with
          | (_, Some err) =>
              returns
                (ar, Fail (Wrap err
                   "Unable to convert http.Response into AdapterResponse"))
          | (aresp, None) => returns (ar, (aresp, None))
          end
      end
      end
  end.

(** [ar.MultiValueHeaders = h]. *)
Definition setMultiValueHeaders (ar : t) (h : gmap string (list string)) : t :=
  {| Resource := Resource ar; Path := Path ar; HTTPMethod := HTTPMethod ar;
     Headers := Headers ar; MultiValueHeaders := h;
     QueryStringParameters := QueryStringParameters ar;
     MultiValueQueryStringParameters := MultiValueQueryStringParameters ar;
     PathParameters := PathParameters ar; StageVariables := StageVariables ar;
     RequestContext := RequestContext ar; Body := Body ar;
     IsBase64Encoded := IsBase64Encoded ar;
     stripBasePath := stripBasePath ar |}.

End methods.
End AdapterRequest.

(** An instance of the parameters on which the definitions can be run:
    nothing is carried as request context or invocation context, and every
    raw URL is taken to parse. *)
Definition plainPlatform : Platform :=
  {| Any := unit; Ctx := unit; Background := tt;
     unicodeUpper := fun s => s; urlParse := fun _ => None |}.

(** * Vocabulary of the statements *)

(** The definitions of this part do not model code; they name what the
    theorems talk about. *)

(** [p] with a slash put in front unless it has one. *)
Definition withSlash (p : string) : string :=
  if Strings.HasPrefix p "/" then p else "/" +:+ p.

(** [s] consists of spaces only. *)
Definition allSpaces (s : string) : bool :=
  Strings.forallb (fun c => Ascii.eqb c " ") s.

(** One [key=value] pair of a query string. *)
Definition queryEntry (kv : string * string) : string :=
  Url.QueryEscape kv.1 +:+ "=" +:+ Url.QueryEscape kv.2.

(** The pairs of the entries of a multi-value map, one per value. *)
Definition flatten (entries : list (string * list string))
  : list (string * string) :=
  entries ≫= (fun e => (fun v => (e.1, v)) <$> e.2).

(** The characters that a percent-encoded query component is made of:
    letters, digits, the marks [-_.~], and [%] and [+]. *)
Definition escapedChar (c : ascii) : bool :=
  Url.isAlnum c || Strings.contains "-_.~%+" c.

Section vocabulary.
Context `{Platform}.

(** The body bytes handed to the request, or the error of the decoder. *)
Definition decodedBody (ar : AdapterRequest.t) : list byte + error :=
  if AdapterRequest.IsBase64Encoded ar
  then Base64.DecodeString (AdapterRequest.Body ar)
  else inl (String.list_byte_of_string (AdapterRequest.Body ar)).

(** The query string that one call of [ToRequest] reconstructs. *)
Definition queryString (sched : Schedule) (ar : AdapterRequest.t) : string :=
  if (0 <? size (AdapterRequest.MultiValueQueryStringParameters ar))%nat
  then AdapterRequest.multiValueQueryString ar (multiQueryKeys sched)
  else AdapterRequest.singleValueQueryString ar (queryKeys sched).

(** What one call of [ToRequest] appends to [ar.Path]. *)
Definition querySuffix (sched : Schedule) (ar : AdapterRequest.t) : string :=
  if (0 <? size (AdapterRequest.MultiValueQueryStringParameters ar))%nat
     || (0 <? size (AdapterRequest.QueryStringParameters ar))%nat
  then "?" +:+ queryString sched ar
  else "".

(** The header set that the loop over [ar.Headers] builds from [h]. *)
Definition requestHeader (ar : AdapterRequest.t) (keys : list string)
  (h : gmap string (list string)) : gmap string (list string) :=
  fold_left
    (fun h k => Http.Add h k (default "" (AdapterRequest.Headers ar !! k)))
    keys h.

End vocabulary.

(** ** Example inputs *)

(** An event with the given path and method and nothing else. *)
Definition event `{Platform} (rc : Any) (path method : string)
  : AdapterRequest.t :=
  {| AdapterRequest.Resource := "";
     AdapterRequest.Path := path;
     AdapterRequest.HTTPMethod := method;
     AdapterRequest.Headers := ∅;
     AdapterRequest.MultiValueHeaders := ∅;
     AdapterRequest.QueryStringParameters := ∅;
     AdapterRequest.MultiValueQueryStringParameters := ∅;
     AdapterRequest.PathParameters := ∅;
     AdapterRequest.StageVariables := ∅;
     AdapterRequest.RequestContext := rc;
     AdapterRequest.Body := "";
     AdapterRequest.IsBase64Encoded := false;
     AdapterRequest.stripBasePath := "" |}.

(** The event [{path: "/api/hello", httpMethod: "get"}]. *)
Definition helloEvent `{Platform} (rc : Any) : AdapterRequest.t :=
  event rc "/api/hello" "get".

(** An environment in which the custom host variable is set. *)
Definition helloEnv : Env := {[ CustomHostVariable := "https://example.com" ]}.

(** The schedule of a call on an event whose maps are all empty. *)
Definition noKeys : Schedule := mkSchedule [] [] [].

Section example_inputs.
#[local] Existing Instance plainPlatform.

(** A search event: a query in both maps, a header in both maps. *)
Definition searchEvent : @AdapterRequest.t plainPlatform :=
  {| AdapterRequest.Resource := "";
     AdapterRequest.Path := "/search";
     AdapterRequest.HTTPMethod := "get";
     AdapterRequest.Headers := {[ "content-type" := "text/plain" ]};
     AdapterRequest.MultiValueHeaders := {[ "x-trace" := ["1"; "2"] ]};
     AdapterRequest.QueryStringParameters := {[ "page" := "1" ]};
     AdapterRequest.MultiValueQueryStringParameters :=
       {[ "tag" := ["a&b"; "c d"] ]};
     AdapterRequest.PathParameters := ∅;
     AdapterRequest.StageVariables := ∅;
     AdapterRequest.RequestContext := tt;
     AdapterRequest.Body := "hi";
     AdapterRequest.IsBase64Encoded := false;
     AdapterRequest.stripBasePath := "" |}.

(** The only orders in which the maps of [searchEvent] can be visited. *)
Definition searchSchedule : Schedule :=
  mkSchedule ["tag"] ["page"] ["content-type"].

(** The request that [ToRequest] makes of [searchEvent]. *)
Definition searchRequest : @Http.Request.t plainPlatform :=
  {| Http.Request.Method := "GET";
     Http.Request.RawURL := "/search?tag=a%26b&tag=c+d";
     Http.Request.Header := {[ "Content-Type" := ["text/plain"] ]};
     Http.Request.Body := String.list_byte_of_string "hi";
     Http.Request.ContentLength := 2;
     Http.Request.ctx := tt |}.

(** [searchEvent] flagged as base64, with a body that is not base64. *)
Definition brokenEvent : @AdapterRequest.t plainPlatform :=
  {| AdapterRequest.Resource := "";
     AdapterRequest.Path := "/search";
     AdapterRequest.HTTPMethod := "get";
     AdapterRequest.Headers := {[ "content-type" := "text/plain" ]};
     AdapterRequest.MultiValueHeaders := {[ "x-trace" := ["1"; "2"] ]};
     AdapterRequest.QueryStringParameters := {[ "page" := "1" ]};
     AdapterRequest.MultiValueQueryStringParameters :=
       {[ "tag" := ["a&b"; "c d"] ]};
     AdapterRequest.PathParameters := ∅;
     AdapterRequest.StageVariables := ∅;
     AdapterRequest.RequestContext := tt;
     AdapterRequest.Body := "!!!";
     AdapterRequest.IsBase64Encoded := true;
     AdapterRequest.stripBasePath := "" |}.

(** An event under the base path [/v1], with a base64 body. *)
Definition versionedEvent : @AdapterRequest.t plainPlatform :=
  {| AdapterRequest.Resource := "";
     AdapterRequest.Path := "/v1/items";
     AdapterRequest.HTTPMethod := "post";
     AdapterRequest.Headers := ∅;
     AdapterRequest.MultiValueHeaders := ∅;
     AdapterRequest.QueryStringParameters := ∅;
     AdapterRequest.MultiValueQueryStringParameters := ∅;
     AdapterRequest.PathParameters := ∅;
     AdapterRequest.StageVariables := ∅;
     AdapterRequest.RequestContext := tt;
     AdapterRequest.Body := "//4=";
     AdapterRequest.IsBase64Encoded := true;
     AdapterRequest.stripBasePath := "/v1" |}.

(** An event whose path starts with two slashes, after
    [StripBasePath("//")], which stores ["/"]. *)
Definition doubleSlashEvent : @AdapterRequest.t plainPlatform :=
  (AdapterRequest.StripBasePath (@event plainPlatform tt "//x" "get") "//").1.

(** A handler that answers [204 No Content] and writes no body, and the
    recorder it leaves when it is given a new one. *)
Definition noContentHandler : @Handler plainPlatform :=
  fun _ w => Httptest.WriteHeader w 204.

Definition noContentRecorder : Httptest.ResponseRecorder :=
  {| Httptest.Code := 204; Httptest.HeaderMap := ∅;
     Httptest.Body := Some []; Httptest.Flushed := false;
     Httptest.snapHeader := Some ∅; Httptest.wroteHeader := true |}.

(** A captured response with a text body and one with a binary body. *)
Definition textResponse : Http.Response.t :=
  {| Http.Response.StatusCode := 200;
     Http.Response.Header := {[ "Content-Type" := ["application/octet-stream"] ]};
     Http.Response.Body :=
       {| Http.data := String.list_byte_of_string "Hello World!";
          Http.failure := None |} |}.

Definition binaryResponse : Http.Response.t :=
  {| Http.Response.StatusCode := 200;
     Http.Response.Header := {[ "Content-Type" := ["text/plain"] ]};
     Http.Response.Body :=
       {| Http.data := [xff; xfe]; Http.failure := None |} |}.

(** A response passed to the accessors with every field set, such as a
    caller may build by hand. *)
Definition describedResponse : AdapterResponse.t :=
  {| AdapterResponse.StatusCode := 404;
     AdapterResponse.StatusDescription := "404 Not Found";
     AdapterResponse.Headers := {[ "Content-Type" := "text/plain" ]};
     AdapterResponse.MultiValueHeaders := {[ "Set-Cookie" := ["a=1"; "b=2"] ]};
     AdapterResponse.Body := "not found";
     AdapterResponse.IsBase64Encoded := false |}.

End example_inputs.

(** * The example programs *)

(** The two example programs wire the adapter to a router: each has a
    package variable holding the router, an [http.Handler], and a function
    [handler] that the Lambda runtime calls. The router is a parameter
    here. The event is passed by value, so what [Proxy] does to its
    receiver is not seen by the caller. *)

(** The zero values [events.APIGatewayProxyResponse{}] and
    [events.ALBTargetGroupResponse{}]. *)
Definition zeroAPIGatewayProxyResponse : Events.APIGatewayProxyResponse.t :=
  {| Events.APIGatewayProxyResponse.StatusCode := 0;
     Events.APIGatewayProxyResponse.Headers := ∅;
     Events.APIGatewayProxyResponse.MultiValueHeaders := ∅;
     Events.APIGatewayProxyResponse.Body := "";
     Events.APIGatewayProxyResponse.IsBase64Encoded := false |}.

Definition zeroALBTargetGroupResponse : Events.ALBTargetGroupResponse.t :=
  {| Events.ALBTargetGroupResponse.StatusCode := 0;
     Events.ALBTargetGroupResponse.StatusDescription := "";
     Events.ALBTargetGroupResponse.Headers := ∅;
     Events.ALBTargetGroupResponse.MultiValueHeaders := ∅;
     Events.ALBTargetGroupResponse.Body := "";
     Events.ALBTargetGroupResponse.IsBase64Encoded := false |}.

(** examples/gorillamux_apigw.go *)
Module GorillaMux.
Section program.
Context `{Platform}.

(** [handler(ctx, adapterRequest)], with the router [r]. *)
Definition handler (sched : Schedule) (env : Env) (r : Handler) (c : Ctx)
  (adapterRequest : AdapterRequest.t)
  : outcome (Events.APIGatewayProxyResponse.t * option error) :=
  match AdapterRequest.Proxy sched env adapterRequest c r with
  | blocks => blocks
  | panics => panics
  | returns (_, (_, Some err)) =>
      returns (zeroAPIGatewayProxyResponse,
               Some (Wrap err "Unable to get adapter response"))
  | returns (_, (None, None)) => panics  (* a method of a nil response *)
  | returns (_, (Some adapterResponse, None)) =>
      returns (AdapterResponse.APIGatewayProxyResponse adapterResponse)
  end.

End program.
End GorillaMux.

(** The echo example, for a load balancer target group. *)
Module Echo.
Section program.
Context `{Platform}.

(** [handler(ctx, adapterRequest)], with the router [e]. *)
Definition handler (sched : Schedule) (env : Env) (e : Handler) (c : Ctx)
  (adapterRequest : AdapterRequest.t)
  : outcome (Events.ALBTargetGroupResponse.t * option error) :=
  match AdapterRequest.Proxy sched env adapterRequest c e with
  | blocks => blocks
  | panics => panics
  | returns (_, (_, Some err)) =>
      returns (zeroALBTargetGroupResponse,
               Some (Wrap err "Unable to proxy request"))
  | returns (_, (None, None)) => panics  (* a method of a nil response *)
  | returns (_, (Some adapterResponse, None)) =>
      returns (AdapterResponse.ALBTargetGroupResponse adapterResponse)
  end.

End program.
End Echo.

(** * More vocabulary *)

(** [s] without its carriage returns and line feeds. *)
Definition withoutNewlines (src : list byte) : list byte :=
  filter (fun c => Base64.isNewline c = false) src.

(** The character that an escaped query component starts with, and the
    rest of the component. *)
Definition hexValue (c : ascii) : Z :=
  if (48 <=? code c) && (code c <=? 57) then code c - 48
  else code c - 55.

Definition unescapeHead (s : string) : option (ascii * string) :=
  match s with
  | EmptyString => None
  | String "+" r => Some (" "%char, r)
  | String "%" (String h (String l r)) =>
      Some (ascii_of_N (Z.to_N (hexValue h * 16 + hexValue l)), r)
  | String c r => Some (c, r)
  end.


Section more_vocabulary.
Context `{Platform}.

(** [ar.Body = body; ar.IsBase64Encoded = flag]. *)
Definition setBody (ar : AdapterRequest.t) (body : string) (flag : bool)
  : AdapterRequest.t :=
  {| AdapterRequest.Resource := AdapterRequest.Resource ar;
     AdapterRequest.Path := AdapterRequest.Path ar;
     AdapterRequest.HTTPMethod := AdapterRequest.HTTPMethod ar;
     AdapterRequest.Headers := AdapterRequest.Headers ar;
     AdapterRequest.MultiValueHeaders := AdapterRequest.MultiValueHeaders ar;
     AdapterRequest.QueryStringParameters :=
       AdapterRequest.QueryStringParameters ar;
     AdapterRequest.MultiValueQueryStringParameters :=
       AdapterRequest.MultiValueQueryStringParameters ar;
     AdapterRequest.PathParameters := AdapterRequest.PathParameters ar;
     AdapterRequest.StageVariables := AdapterRequest.StageVariables ar;
     AdapterRequest.RequestContext := AdapterRequest.RequestContext ar;
     AdapterRequest.Body := body;
     AdapterRequest.IsBase64Encoded := flag;
     AdapterRequest.stripBasePath := AdapterRequest.stripBasePath ar |}.

(** The method that [http.NewRequest] is given, with its default. *)
Definition requestMethod (ar : AdapterRequest.t) : string :=
  let m := Strings.ToUpper unicodeUpper (AdapterRequest.HTTPMethod ar) in
  if String.eqb m "" then "GET" else m.

End more_vocabulary.

(** A string that is empty or starts with a character that escaping never
    produces, such as the separators [=] and [&]. *)
Definition separated (t : string) : Prop :=
  match t with
  | EmptyString => True
  | String h _ => escapedChar h = false
  end.

(** What follows the first pair in a query string. *)
Definition queryTail (l : list (string * string)) : string :=
  match l with
  | [] => ""
  | _ => "&" +:+ String.concat "&" (queryEntry <$> l)
  end.

(** ** More example inputs *)

Section more_example_inputs.
#[local] Existing Instance plainPlatform.

(** An event whose method is not a token. *)
Definition badMethodEvent : AdapterRequest.t := event tt "/x" "GE T".

(** A handler that returns without touching the recorder. *)
Definition silentHandler : Handler := fun _ w => returns w.

(** [versionedEvent] with a line feed inside its base64 body. *)
Definition wrappedEvent : AdapterRequest.t :=
  setBody versionedEvent ("//" +:+ String "010" "4=") true.

(** An event whose multi-value query map holds a key without values. *)
Definition emptyListEvent : AdapterRequest.t :=
  {| AdapterRequest.Resource := "";
     AdapterRequest.Path := "/list";
     AdapterRequest.HTTPMethod := "GET";
     AdapterRequest.Headers := ∅;
     AdapterRequest.MultiValueHeaders := ∅;
     AdapterRequest.QueryStringParameters := {[ "page" := "1" ]};
     AdapterRequest.MultiValueQueryStringParameters := {[ "tag" := [] ]};
     AdapterRequest.PathParameters := ∅;
     AdapterRequest.StageVariables := ∅;
     AdapterRequest.RequestContext := tt;
     AdapterRequest.Body := "";
     AdapterRequest.IsBase64Encoded := false;
     AdapterRequest.stripBasePath := "" |}.

End more_example_inputs.

(** * Properties *)

Import AdapterRequest.

Section base64.

Lemma u8_range b : 0 <= u8 b < 256.
Proof. unfold u8. pose proof (Byte.to_N_bounded b). lia. Qed.

Lemma to_byte_u8 b : to_byte (u8 b) = b.
Proof. destruct b; reflexivity. Qed.

Lemma to_byte_mod v b : v mod 256 = u8 b → to_byte v = b.
Proof.
  intros Hv. rewrite <- (to_byte_u8 b). unfold to_byte.
  change 255 with (Z.ones 8). rewrite !Z.land_ones by lia.
  change (2 ^ 8) with 256. rewrite Hv, Z.mod_small by apply u8_range.
  reflexivity.
Qed.

(** A value whose low [k] bits are clear is or-ed with a [k]-bit value by
    adding it. *)
Lemma lor_low_add x lo k :
  0 <= k → x mod 2 ^ k = 0 → 0 <= lo < 2 ^ k → Z.lor x lo = x + lo.
Proof.
  intros Hk Hx Hlo. symmetry. apply Z.add_nocarry_lor.
  apply Z.bits_inj'. intros n Hn.
  rewrite Z.land_spec, Z.bits_0.
  destruct (Z.lt_ge_cases n k) as [Hlt|Hge].
  - rewrite <- (Z.mod_pow2_bits_low x k n) by lia. rewrite Hx, Z.bits_0.
    reflexivity.
  - rewrite <- (Z.mod_small lo (2 ^ k)) by lia.
    rewrite Z.mod_pow2_bits_high by lia. apply andb_false_r.
Qed.

Lemma land_63 v : Z.land v 63 = v mod 64.
Proof. change 63 with (Z.ones 6). rewrite Z.land_ones by lia. reflexivity. Qed.

Lemma value3 a b c :
  0 <= a < 256 → 0 <= b < 256 → 0 <= c < 256 →
  Z.lor (Z.lor (Z.shiftl a 16) (Z.shiftl b 8)) c = a * 65536 + b * 256 + c.
Proof.
  intros Ha Hb Hc. rewrite !Z.shiftl_mul_pow2 by lia.
  change (2 ^ 16) with 65536. change (2 ^ 8) with 256.
  rewrite (lor_low_add (a * 65536) (b * 256) 16); try lia.
  - rewrite (lor_low_add _ c 8); try lia.
    change (2 ^ 8) with 256. Z.div_mod_to_equations. lia.
  - change (2 ^ 16) with 65536. Z.div_mod_to_equations. lia.
Qed.

Lemma assemble_value d0 d1 d2 d3 :
  0 <= d0 < 64 → 0 <= d1 < 64 → 0 <= d2 < 64 → 0 <= d3 < 64 →
  Base64.assemble d0 d1 d2 d3 = d0 * 262144 + d1 * 4096 + d2 * 64 + d3.
Proof.
  intros H0 H1 H2 H3. unfold Base64.assemble.
  rewrite !Z.shiftl_mul_pow2 by lia.
  change (2 ^ 18) with 262144. change (2 ^ 12) with 4096.
  change (2 ^ 6) with 64.
  rewrite (lor_low_add (d0 * 262144) (d1 * 4096) 18); try lia.
  2: { change (2 ^ 18) with 262144. Z.div_mod_to_equations. lia. }
  rewrite (lor_low_add _ (d2 * 64) 12); try lia.
  2: { change (2 ^ 12) with 4096. Z.div_mod_to_equations. lia. }
  rewrite (lor_low_add _ d3 6); try lia.
  change (2 ^ 6) with 64. Z.div_mod_to_equations. lia.
Qed.


Lemma resplit v :
  0 <= v < 16777216 →
  Base64.assemble (Z.land (Z.shiftr v 18) 63) (Z.land (Z.shiftr v 12) 63)
                  (Z.land (Z.shiftr v 6) 63) (Z.land v 63) = v.
Proof.
  intros Hv. rewrite !land_63, !Z.shiftr_div_pow2 by lia.
  change (2 ^ 18) with 262144. change (2 ^ 12) with 4096.
  change (2 ^ 6) with 64.
  rewrite assemble_value; Z.div_mod_to_equations; lia.
Qed.

Lemma quantum3 b0 b1 b2 :
  let val := Z.lor (Z.lor (Z.shiftl (u8 b0) 16) (Z.shiftl (u8 b1) 8)) (u8 b2) in
  Base64.quantumBytes 4 (Z.land (Z.shiftr val 18) 63)
    (Z.land (Z.shiftr val 12) 63) (Z.land (Z.shiftr val 6) 63)
    (Z.land val 63) = [b0; b1; b2].
Proof.
  intros val. pose proof (u8_range b0). pose proof (u8_range b1).
  pose proof (u8_range b2).
  assert (Hval : val = u8 b0 * 65536 + u8 b1 * 256 + u8 b2)
    by (apply value3; assumption).
  unfold Base64.quantumBytes. rewrite resplit by lia.
  rewrite !Z.shiftr_div_pow2 by lia.
  change (2 ^ 16) with 65536. change (2 ^ 8) with 256.
  simpl take. repeat f_equal; apply to_byte_mod;
    rewrite Hval; Z.div_mod_to_equations; lia.
Qed.

Lemma quantum2 b0 b1 :
  let val := Z.lor (Z.shiftl (u8 b0) 16) (Z.shiftl (u8 b1) 8) in
  Base64.quantumBytes 3 (Z.land (Z.shiftr val 18) 63)
    (Z.land (Z.shiftr val 12) 63) (Z.land (Z.shiftr val 6) 63) 0 = [b0; b1].
Proof.
  intros val. pose proof (u8_range b0) as R0. pose proof (u8_range b1) as R1.
  assert (Hval : val = u8 b0 * 65536 + u8 b1 * 256).
  { unfold val. rewrite <- (Z.lor_0_r (Z.lor _ _)).
    rewrite value3 by lia. lia. }
  assert (Hlow : 0 = Z.land val 63).
  { rewrite land_63, Hval. Z.div_mod_to_equations. lia. }
  rewrite Hlow at 1.
  unfold Base64.quantumBytes. rewrite resplit by lia.
  rewrite !Z.shiftr_div_pow2 by lia.
  change (2 ^ 16) with 65536. change (2 ^ 8) with 256.
  simpl take. repeat f_equal; apply to_byte_mod;
    rewrite Hval; Z.div_mod_to_equations; lia.
Qed.

Lemma quantum1 b0 :
  let val := Z.shiftl (u8 b0) 16 in
  Base64.quantumBytes 2 (Z.land (Z.shiftr val 18) 63)
    (Z.land (Z.shiftr val 12) 63) 0 0 = [b0].
Proof. intros val. subst val. destruct b0; reflexivity. Qed.

Lemma sextet_range v : 0 <= Z.land v 63 < 64.
Proof. rewrite land_63. apply Z.mod_pos_bound. lia. Qed.

Lemma decodeMap_encode v :
  0 <= v < 64 → Base64.decodeMap (Base64.encode v) = v.
Proof.
  intros Hv.
  assert (∃ n, (n < 64)%nat ∧ v = Z.of_nat n) as (n & Hn & ->)
    by (exists (Z.to_nat v); lia).
  do 64 (destruct n as [|n]; [reflexivity|]). lia.
Qed.


(** One character of the alphabet is consumed as one sextet. *)
Lemma decode_sextet v rest si dbuf :
  0 <= v < 64 →
  Base64.decode (Base64.encode v :: rest) si dbuf =
    match dbuf with
    | [d0; d1; d2] =>
        match Base64.decode rest (si + 1) [] with
        | inl bs => inl (Base64.quantumBytes 4 d0 d1 d2 v ++ bs)
        | inr e => inr e
        end
    | _ => Base64.decode rest (si + 1) (dbuf ++ [v])
    end.
Proof.
  intros Hv. cbn [Base64.decode]. rewrite decodeMap_encode by assumption.
  destruct (Z.eqb_spec v 255); [lia|]. reflexivity.
Qed.

Lemma list_ind3 {A} (P : list A → Prop) :
  P [] → (∀ a, P [a]) → (∀ a b, P [a; b]) →
  (∀ a b c l, P l → P (a :: b :: c :: l)) → ∀ l, P l.
Proof.
  intros H0 H1 H2 H3.
  fix IH 1. intros [|a [|b [|c l]]];
    [exact H0 | exact (H1 a) | exact (H2 a b) | exact (H3 a b c l (IH l))].
Qed.

Lemma decode_Encode bs : ∀ si, Base64.decode (Base64.Encode bs) si [] = inl bs.
Proof.
  induction bs as [|b0|b0 b1|b0 b1 b2 bs IH] using list_ind3; intros si.
  - reflexivity.
  - cbn [Base64.Encode].
    rewrite !decode_sextet by apply sextet_range. cbn [app].
    rewrite <- (quantum1 b0). reflexivity.
  - cbn [Base64.Encode].
    rewrite !decode_sextet by apply sextet_range. cbn [app].
    rewrite <- (quantum2 b0 b1). reflexivity.
  - cbn [Base64.Encode].
    rewrite !decode_sextet by apply sextet_range. cbn [app].
    rewrite IH, quantum3. reflexivity.
Qed.

Lemma DecodeString_EncodeToString bs :
  Base64.DecodeString (Base64.EncodeToString bs) = inl bs.
Proof.
  unfold Base64.DecodeString, Base64.EncodeToString.
  rewrite String.list_byte_of_string_of_list_byte. apply decode_Encode.
Qed.

End base64.

Section strings_facts.

Lemma str_append_cons c s t : String c s +:+ t = String c (s +:+ t).
Proof. reflexivity. Qed.

Lemma str_append_nil s : "" +:+ s = s.
Proof. reflexivity. Qed.

Lemma str_append_assoc s t u : (s +:+ t) +:+ u = s +:+ (t +:+ u).
Proof.
  induction s as [|c s IH]; rewrite ?str_append_cons, ?str_append_nil;
    [reflexivity|f_equal; exact IH].
Qed.

Lemma str_append_nil_r s : s +:+ "" = s.
Proof.
  induction s as [|c s IH]; rewrite ?str_append_cons, ?str_append_nil;
    [reflexivity|f_equal; exact IH].
Qed.

Lemma str_prefix_app p rest : String.prefix p (p +:+ rest) = true.
Proof.
  induction p as [|c p IH]; rewrite ?str_append_cons, ?str_append_nil; cbn.
  - destruct rest; reflexivity.
  - destruct (ascii_dec c c); [exact IH|congruence].
Qed.

Lemma str_drop_app p rest : Strings.drop (String.length p) (p +:+ rest) = rest.
Proof.
  induction p as [|c p IH]; rewrite ?str_append_cons, ?str_append_nil; cbn;
    [destruct rest; reflexivity|exact IH].
Qed.

Lemma Index_prefix s p : String.prefix p s = true → Strings.Index s p = Some 0%nat.
Proof.
  intros Hp.
  assert (Heq : Strings.Index s p =
                if String.prefix p s then Some 0%nat
                else match s with
                     | EmptyString => None
                     | String _ s' => S <$> Strings.Index s' p
                     end) by (destruct s; reflexivity).
  rewrite Heq, Hp. reflexivity.
Qed.

(** Replacing the first occurrence of a non-empty prefix removes that
    prefix and nothing else. *)
Lemma Replace1_prefix p rest :
  p ≠ "" → Strings.Replace1 (p +:+ rest) p "" = rest.
Proof.
  intros Hne. unfold Strings.Replace1.
  destruct (String.eqb_spec p ""); [contradiction|].
  rewrite Index_prefix by apply str_prefix_app.
  cbn [Strings.take Nat.add]. rewrite !str_append_nil. apply str_drop_app.
Qed.

Lemma contains_space c : Strings.contains " " c = Ascii.eqb c " ".
Proof.
  unfold Strings.contains. cbn.
  destruct (ascii_dec c " ") as [->|Hne]; [reflexivity|].
  destruct (Ascii.eqb_spec c " "); [contradiction|]. reflexivity.
Qed.

Lemma trimRight_spaces s :
  Strings.trimRight s " " = "" ↔ allSpaces s = true.
Proof.
  induction s as [|c s IH]; cbn.
  - tauto.
  - rewrite contains_space. destruct (Strings.trimRight s " ") eqn:Ht.
    + destruct (Ascii.eqb c " "); cbn; [tauto|].
      split; discriminate.
    + split; [discriminate|]. intros [_ H]%andb_true_iff.
      apply IH in H. discriminate.
Qed.

Lemma trimLeft_nil s cutset :
  Strings.trimLeft s cutset = "" → Strings.forallb (Strings.contains cutset) s = true.
Proof.
  induction s as [|c s IH]; cbn; [reflexivity|].
  destruct (Strings.contains cutset c); [exact IH|discriminate].
Qed.

Lemma trimRight_last_kept s cutset :
  Strings.forallb (Strings.contains cutset) (Strings.trimRight s cutset) = true →
  Strings.trimRight s cutset = "".
Proof.
  induction s as [|c s IH]; cbn; [reflexivity|].
  destruct (Strings.trimRight s cutset) eqn:Ht.
  - destruct (Strings.contains cutset c) eqn:Hc; [reflexivity|].
    cbn. rewrite Hc. discriminate.
  - cbn [Strings.forallb]. intros [_ H]%andb_true_iff. apply IH in H.
    discriminate.
Qed.

(** [strings.Trim(s, " ") == ""] exactly when [s] is made of spaces. *)
Lemma Trim_spaces s : Strings.Trim s " " = "" ↔ allSpaces s = true.
Proof.
  unfold Strings.Trim. split.
  - intros H. apply trimRight_spaces, trimRight_last_kept, trimLeft_nil, H.
  - intros H. apply trimRight_spaces in H. rewrite H. reflexivity.
Qed.

Lemma str_length_app s t :
  String.length (s +:+ t) = (String.length s + String.length t)%nat.
Proof.
  induction s; rewrite ?str_append_cons, ?str_append_nil; cbn;
    [reflexivity|f_equal; assumption].
Qed.

Lemma str_take_app s t : Strings.take (String.length s) (s +:+ t) = s.
Proof.
  induction s as [|c s IH]; rewrite ?str_append_cons, ?str_append_nil; cbn;
    [reflexivity|f_equal; exact IH].
Qed.

Lemma str_substring_drop n s :
  String.substring n (String.length s - n) s = Strings.drop n s.
Proof.
  revert n. induction s as [|c s IH]; intros [|n]; cbn; try reflexivity.
  - f_equal. specialize (IH 0%nat). rewrite Nat.sub_0_r in IH.
    rewrite IH. reflexivity.
  - apply IH.
Qed.

Lemma HasSuffix_app s suffix : Strings.HasSuffix (s +:+ suffix) suffix = true.
Proof.
  unfold Strings.HasSuffix. rewrite str_length_app.
  apply andb_true_iff. split; [apply Nat.leb_le; lia|].
  replace (String.length s + String.length suffix - String.length suffix)%nat
    with (String.length s) by lia.
  replace (String.length suffix)
    with (String.length s + String.length suffix - String.length s)%nat at 1
    by lia.
  rewrite <- str_length_app, str_substring_drop, str_drop_app. apply String.eqb_refl.
Qed.

End strings_facts.

(** ** C1 *)

(** C1. For the event [{path: "/api/hello", httpMethod: "get"}] with the
    custom host set to [https://example.com] and no base path, [ToRequest]
    does compute the absolute path [https://example.com/api/hello], but the
    request it makes, when [url.Parse] accepts the URL, has method [GET]
    and the URL [/api/hello]: the URL handed to [http.NewRequest] is the
    receiver's own path, not the computed absolute path. *)
Theorem ToRequest_hello_url {P : Platform} (rc : Any) :
  AdapterRequest.absolutePath helloEnv (helloEvent rc)
    = "https://example.com/api/hello"
  ∧ AdapterRequest.ToRequest noKeys helloEnv (helloEvent rc) =
      (helloEvent rc,
       match urlParse "/api/hello" with
       | Some err => Fail err
       | None =>
           Ok {| Http.Request.Method := "GET";
                 Http.Request.RawURL := "/api/hello";
                 Http.Request.Header := ∅;
                 Http.Request.Body := [];
                 Http.Request.ContentLength := 0;
                 Http.Request.ctx := Background |}
       end).
Proof.
  destruct P as [A C bg up parse]. split.
  - reflexivity.
  - vm_compute. destruct (parse _); reflexivity.
Qed.

Section resolved.
Context `{Platform}.

Lemma withSlash_prefix p : Strings.HasPrefix (withSlash p) "/" = true.
Proof.
  unfold withSlash. destruct (Strings.HasPrefix p "/") eqn:Hp; [exact Hp|].
  apply str_prefix_app.
Qed.

Lemma resolvedPath_unfold (ar : AdapterRequest.t) :
  resolvedPath ar =
    withSlash
      (if negb (String.eqb (stripBasePath ar) "")
          && (1 <? String.length (stripBasePath ar))%nat
       then if Strings.HasPrefix (Path ar) (stripBasePath ar)
            then Strings.Replace1 (Path ar) (stripBasePath ar) ""
            else Path ar
       else Path ar).
Proof.
  unfold resolvedPath, withSlash.
  match goal with |- context [Strings.HasPrefix ?p "/"] =>
    destruct (Strings.HasPrefix p "/") end; reflexivity.
Qed.

Lemma resolvedPath_stripped (ar : AdapterRequest.t) rest :
  (1 < String.length (stripBasePath ar))%nat →
  Path ar = stripBasePath ar +:+ rest →
  resolvedPath ar = withSlash rest.
Proof.
  rewrite resolvedPath_unfold. intros Hlen Hpath.
  assert (Hne : stripBasePath ar ≠ "")
    by (intros E; rewrite E in Hlen; cbn in Hlen; lia).
  destruct (String.eqb_spec (stripBasePath ar) ""); [contradiction|].
  destruct (Nat.ltb_spec 1 (String.length (stripBasePath ar))); [|lia].
  cbn [negb andb]. rewrite Hpath. unfold Strings.HasPrefix at 1.
  rewrite str_prefix_app, Replace1_prefix by assumption. reflexivity.
Qed.

Lemma resolvedPath_kept (ar : AdapterRequest.t) :
  (String.length (stripBasePath ar) ≤ 1)%nat
  ∨ Strings.HasPrefix (Path ar) (stripBasePath ar) = false →
  resolvedPath ar = withSlash (Path ar).
Proof.
  rewrite resolvedPath_unfold. intros [Hlen|Hpre].
  - destruct (Nat.ltb_spec 1 (String.length (stripBasePath ar))); [lia|].
    rewrite andb_false_r. reflexivity.
  - rewrite Hpre. destruct (_ && _); reflexivity.
Qed.

Lemma resolvedPath_slash (ar : AdapterRequest.t) :
  Strings.HasPrefix (resolvedPath ar) "/" = true.
Proof. rewrite resolvedPath_unfold. apply withSlash_prefix. Qed.

(** ** C2 *)

(** C2, amended. The path that [ToRequest] resolves: when the stored base
    path is longer than one character and the event path starts with it,
    that one leading occurrence is removed and nothing else; when the
    stored base path has at most one character, or the event path does not
    start with it, the event path is kept; in both cases a slash is put in
    front of a result that has none, so that the resolved path always
    starts with a slash. *)
Theorem resolvedPath_strips_once (ar : AdapterRequest.t) :
  (∀ rest, (1 < String.length (stripBasePath ar))%nat →
           Path ar = stripBasePath ar +:+ rest →
           resolvedPath ar = withSlash rest)
  ∧ ((String.length (stripBasePath ar) ≤ 1)%nat
     ∨ Strings.HasPrefix (Path ar) (stripBasePath ar) = false →
     resolvedPath ar = withSlash (Path ar))
  ∧ Strings.HasPrefix (resolvedPath ar) "/" = true.
Proof.
  split; [|split].
  - intros rest. apply resolvedPath_stripped.
  - apply resolvedPath_kept.
  - apply resolvedPath_slash.
Qed.

End resolved.

Section to_request.
Context `{Platform}.

Lemma setPath_id (ar : AdapterRequest.t) : setPath ar (Path ar) = ar.
Proof. destruct ar; reflexivity. Qed.

Lemma setHeader_id (r : Http.Request.t) :
  Http.setHeader r (Http.Request.Header r) = r.
Proof. destruct r; reflexivity. Qed.

Lemma header_loop (ar : AdapterRequest.t) keys (r : Http.Request.t) :
  fold_left
    (fun httpRequest h =>
       Http.setHeader httpRequest
         (Http.Add (Http.Request.Header httpRequest) h
            (default "" (Headers ar !! h))))
    keys r
  = Http.setHeader r (requestHeader ar keys (Http.Request.Header r)).
Proof.
  revert r. induction keys as [|k keys IH]; intros r; cbn.
  - symmetry. apply setHeader_id.
  - rewrite IH. destruct r; reflexivity.
Qed.

(** [ToRequest] in one equation: the decoded body, the receiver with the
    query string appended to its own path, and the request made from the
    receiver's path. *)
Lemma ToRequest_eq sched env (ar : AdapterRequest.t) :
  ToRequest sched env ar =
    match decodedBody ar with
    | inr err => (ar, Fail err)
    | inl body =>
        let ar' := setPath ar (Path ar +:+ querySuffix sched ar) in
        (ar',
         match Http.NewRequest (Strings.ToUpper unicodeUpper (HTTPMethod ar))
                 (Path ar') body with
         | inr err => Fail err
         | inl r =>
             Ok (Http.setHeader r
                   (requestHeader ar (headerKeys sched) (Http.Request.Header r)))
         end)
    end.
Proof.
  unfold ToRequest, decodedBody, querySuffix, queryString.
  destruct (if IsBase64Encoded ar then _ else _) as [body|err]; [|reflexivity].
  destruct (0 <? size (MultiValueQueryStringParameters ar))%nat; cbn [orb].
  - cbn zeta. cbn [Path HTTPMethod Headers setPath].
    destruct (Http.NewRequest _ _ _); [|reflexivity].
    rewrite header_loop. reflexivity.
  - destruct (0 <? size (QueryStringParameters ar))%nat.
    + cbn zeta. cbn [Path HTTPMethod Headers setPath].
      destruct (Http.NewRequest _ _ _); [|reflexivity].
      rewrite header_loop. reflexivity.
    + cbn zeta. rewrite str_append_nil_r, setPath_id.
      destruct (Http.NewRequest _ _ _); [|reflexivity].
      rewrite header_loop. reflexivity.
Qed.

Lemma NewRequest_fields method url body (r : Http.Request.t) :
  Http.NewRequest method url body = inl r →
  Http.Request.RawURL r = url ∧ Http.Request.Body r = body
  ∧ Http.Request.Header r = ∅
  ∧ Http.Request.Method r = (if String.eqb method "" then "GET" else method)
  ∧ urlParse url = None.
Proof.
  unfold Http.NewRequest. destruct (negb _); [discriminate|].
  destruct (urlParse url); [discriminate|].
  intros [= <-]. repeat split.
Qed.

(** What a successful call returns. *)
Lemma ToRequest_Ok sched env (ar ar' : AdapterRequest.t) (req : Http.Request.t) :
  ToRequest sched env ar = (ar', Ok req) →
  ∃ body,
    decodedBody ar = inl body
    ∧ ar' = setPath ar (Path ar +:+ querySuffix sched ar)
    ∧ Http.Request.RawURL req = Path ar +:+ querySuffix sched ar
    ∧ Http.Request.Body req = body
    ∧ Http.Request.Header req = requestHeader ar (headerKeys sched) ∅.
Proof.
  rewrite ToRequest_eq. destruct (decodedBody ar) as [body|err]; [|discriminate].
  cbn zeta. destruct (Http.NewRequest _ _ _) as [r|err] eqn:Hnew; [|discriminate].
  intros [= <- <-]. exists body.
  apply NewRequest_fields in Hnew as (Hurl & Hbody & Hhdr & _ & _).
  rewrite Hhdr. cbn. auto.
Qed.

End to_request.

Section query.
Context `{Platform}.

Lemma str_append_nonempty_r s t : t ≠ "" → s +:+ t ≠ "".
Proof. intros Ht. destruct s; [exact Ht|discriminate]. Qed.

Lemma queryEntry_nonempty kv : queryEntry kv ≠ "".
Proof.
  unfold queryEntry. apply str_append_nonempty_r. discriminate.
Qed.

Lemma str_concat_snoc sep l x :
  l ≠ [] → String.concat sep (l ++ [x]) = String.concat sep l +:+ sep +:+ x.
Proof.
  induction l as [|y l IH]; [congruence|]. intros _.
  destruct l as [|z l].
  - reflexivity.
  - change (String.concat sep ((y :: z :: l) ++ [x]))
      with (y +:+ sep +:+ String.concat sep ((z :: l) ++ [x])).
    rewrite IH by discriminate.
    change (String.concat sep (y :: z :: l))
      with (y +:+ sep +:+ String.concat sep (z :: l)).
    rewrite !str_append_assoc. reflexivity.
Qed.

Lemma str_concat_nonempty sep l :
  l ≠ [] → (∀ x, x ∈ l → x ≠ "") → String.concat sep l ≠ "".
Proof.
  destruct l as [|x l]; [congruence|]. intros _ Hne.
  assert (Hx : x ≠ "") by (apply Hne; left).
  destruct l; cbn; [exact Hx|].
  destruct x; [congruence|discriminate].
Qed.

(** The loop that adds the pairs one by one joins them with [&]. *)
Lemma addPair_loop (pairs : list (string * string)) :
  fold_left (fun qs kv => addPair qs kv.1 kv.2) pairs ""
  = String.concat "&" (queryEntry <$> pairs).
Proof.
  induction pairs as [|kv pairs IH] using rev_ind; [reflexivity|].
  rewrite fold_left_app, IH, fmap_app. cbn [fold_left fmap list_fmap].
  unfold addPair. fold (queryEntry kv).
  destruct pairs as [|kv0 pairs].
  - reflexivity.
  - rewrite str_concat_snoc by discriminate.
    destruct (String.eqb_spec (String.concat "&" (queryEntry <$> kv0 :: pairs)) "")
      as [Hempty|_].
    + exfalso. revert Hempty. apply str_concat_nonempty; [discriminate|].
      intros x (kv' & -> & _)%list_elem_of_fmap. apply queryEntry_nonempty.
    + cbn [negb]. rewrite !str_append_assoc. reflexivity.
Qed.

Lemma multi_loop_flatten (m : gmap string (list string)) keys acc :
  fold_left
    (fun queryString q =>
       fold_left (fun queryString v => addPair queryString q v)
         (default [] (m !! q)) queryString)
    keys acc
  = fold_left (fun qs kv => addPair qs kv.1 kv.2)
      (flatten ((fun k => (k, default [] (m !! k))) <$> keys)) acc.
Proof.
  revert acc. induction keys as [|k keys IH]; intros acc; [reflexivity|].
  cbn [fold_left fmap list_fmap]. rewrite IH. unfold flatten.
  cbn [mbind list_bind]. rewrite fold_left_app. f_equal.
  cbn [fst snd]. generalize (default [] (m !! k)). intros vs. revert acc.
  induction vs as [|v vs IHv]; intros acc; [reflexivity|]. cbn. apply IHv.
Qed.


End query.


Section query_thm.
Context `{Platform}.

Lemma ltb_size_pos {V} (m : gmap string V) :
  (0 < size m)%nat → (0 <? size m)%nat = true.
Proof. intros. apply Nat.ltb_lt. assumption. Qed.

Lemma single_loop_entries (m : gmap string string) keys acc :
  fold_left (fun queryString q => addPair queryString q (default "" (m !! q)))
    keys acc
  = fold_left (fun qs kv => addPair qs kv.1 kv.2)
      ((fun k => (k, default "" (m !! k))) <$> keys) acc.
Proof.
  revert acc. induction keys as [|k keys IH]; intros acc; [reflexivity|].
  cbn. apply IH.
Qed.

(** ** C5 *)


End query_thm.

Section headers.
Context `{Platform}.

Lemma Add_values (h : gmap string (list string)) k v c :
  Http.values (Http.Add h k v) c =
    if decide (Textproto.CanonicalMIMEHeaderKey k = c)
    then Http.values h c ++ [v] else Http.values h c.
Proof.
  unfold Http.values, Http.Add. rewrite lookup_insert.
  destruct (decide _) as [->|]; reflexivity.
Qed.

Lemma requestHeader_keeps (ar : AdapterRequest.t) keys h c v :
  v ∈ Http.values h c → v ∈ Http.values (requestHeader ar keys h) c.
Proof.
  revert h. induction keys as [|k keys IH]; intros h Hv; [exact Hv|].
  cbn. apply IH. rewrite Add_values.
  destruct (decide _); [apply elem_of_app; left|]; exact Hv.
Qed.

Lemma requestHeader_adds (ar : AdapterRequest.t) keys h k :
  k ∈ keys →
  default "" (Headers ar !! k)
    ∈ Http.values (requestHeader ar keys h) (Textproto.CanonicalMIMEHeaderKey k).
Proof.
  revert h. induction keys as [|k0 keys IH]; intros h Hk.
  - inversion Hk.
  - apply elem_of_cons in Hk as [->|Hk].
    + cbn. apply requestHeader_keeps. rewrite Add_values.
      rewrite decide_True by reflexivity. apply elem_of_app. right. left.
    + cbn. apply IH, Hk.
Qed.

Lemma requestHeader_only (ar : AdapterRequest.t) keys h c v :
  v ∈ Http.values (requestHeader ar keys h) c →
  v ∈ Http.values h c
  ∨ ∃ k, k ∈ keys ∧ Textproto.CanonicalMIMEHeaderKey k = c
         ∧ default "" (Headers ar !! k) = v.
Proof.
  revert h. induction keys as [|k0 keys IH]; intros h Hv; [left; exact Hv|].
  cbn in Hv. apply IH in Hv as [Hv|(k & Hk & Hc & Hval)].
  - rewrite Add_values in Hv. destruct (decide _) as [Hc|]; [|left; exact Hv].
    apply elem_of_app in Hv as [Hv|Hv]; [left; exact Hv|].
    apply list_elem_of_singleton in Hv. right. exists k0.
    split; [left|]. split; [exact Hc|]. symmetry. exact Hv.
  - right. exists k. split; [right; exact Hk|]. split; assumption.
Qed.

Lemma range_order_elem {V} (m : gmap string V) keys k :
  range_order m keys → (k ∈ keys ↔ is_Some (m !! k)).
Proof.
  unfold range_order. intros ->. rewrite list_elem_of_fmap. split.
  - intros ([k' v] & -> & Hkv%elem_of_map_to_list). eexists. exact Hkv.
  - intros [v Hv]. exists (k, v). split; [reflexivity|].
    apply elem_of_map_to_list. exact Hv.
Qed.

(** ** C7 *)

(** C7, amended. For a request produced along an order of the single-value
    header map: the value of every entry of that map is among the values
    that the request holds under the canonical MIME form of the entry's
    key; every value that the request holds under some key is the value of
    an entry whose key has that key as canonical form; and the request does
    not depend on the multi-value header map of the event. *)
Theorem ToRequest_headers sched env (ar ar' : AdapterRequest.t)
    (req : Http.Request.t) :
  range_order (Headers ar) (headerKeys sched) →
  ToRequest sched env ar = (ar', Ok req) →
  (∀ k v, Headers ar !! k = Some v →
          v ∈ Http.values (Http.Request.Header req)
                (Textproto.CanonicalMIMEHeaderKey k))
  ∧ (∀ c v, v ∈ Http.values (Http.Request.Header req) c →
            ∃ k, Headers ar !! k = Some v
                 ∧ Textproto.CanonicalMIMEHeaderKey k = c)
  ∧ (∀ mvh, (ToRequest sched env (setMultiValueHeaders ar mvh)).2
            = (ToRequest sched env ar).2).
Proof.
  intros Hord Hok.
  apply ToRequest_Ok in Hok as (body & _ & _ & _ & _ & Hhdr).
  rewrite Hhdr. repeat split.
  - intros k v Hkv.
    replace v with (default "" (Headers ar !! k)) by (rewrite Hkv; reflexivity).
    apply requestHeader_adds. apply (range_order_elem _ _ _ Hord). eauto.
  - intros c v Hv. apply requestHeader_only in Hv as [Hv|(k & Hk & Hc & Hval)].
    + unfold Http.values in Hv. rewrite lookup_empty in Hv. inversion Hv.
    + apply (range_order_elem _ _ _ Hord) in Hk as [v' Hv'].
      exists k. rewrite Hv' in Hval. cbn in Hval. subst v'. auto.
  - intros mvh. rewrite !ToRequest_eq.
    change (decodedBody (setMultiValueHeaders ar mvh)) with (decodedBody ar).
    destruct (decodedBody ar); reflexivity.
Qed.

End headers.

Section strip_base_path.
Context `{Platform}.

Lemma withSlash_eq p :
  (if negb (Strings.HasPrefix p "/") then "/" +:+ p else p) = withSlash p.
Proof. unfold withSlash. destruct (Strings.HasPrefix p "/"); reflexivity. Qed.

Lemma Trim_allSpaces s :
  String.eqb (Strings.Trim s " ") "" = allSpaces s.
Proof.
  destruct (String.eqb_spec (Strings.Trim s " ") "") as [E|E];
    destruct (allSpaces s) eqn:Hs; try reflexivity.
  - apply Trim_spaces in E. congruence.
  - apply Trim_spaces in Hs. contradiction.
Qed.

(** ** C10 *)

(** C10. [StripBasePath] stores and returns the empty string for an
    argument that is empty or made of spaces; for any other argument it
    stores and returns the argument with a leading slash added when missing
    and then one trailing slash removed when present. A stored base path of
    at most one character is never stripped: the path [ToRequest] resolves
    is then the event path, with a slash in front when it had none. *)
Theorem StripBasePath_normalizes (ar : AdapterRequest.t) (basePath : string) :
  (allSpaces basePath = true →
     StripBasePath ar basePath = (setStripBasePath ar "", ""))
  ∧ (allSpaces basePath = false →
     ∃ n, StripBasePath ar basePath = (setStripBasePath ar n, n)
          ∧ stripBasePath (StripBasePath ar basePath).1 = n
          ∧ (∀ t, withSlash basePath = t +:+ "/" → n = t)
          ∧ (Strings.HasSuffix (withSlash basePath) "/" = false →
             n = withSlash basePath))
  ∧ ((String.length (stripBasePath ar) ≤ 1)%nat →
     resolvedPath ar = withSlash (Path ar)).
Proof.
  unfold StripBasePath. rewrite Trim_allSpaces, withSlash_eq.
  split; [|split].
  - intros ->. reflexivity.
  - intros ->. eexists. split; [reflexivity|]. split; [reflexivity|]. split.
    + intros t Ht. rewrite Ht, HasSuffix_app, str_length_app. cbn [String.length].
      replace (String.length t + 1 - 1)%nat with (String.length t) by lia.
      apply str_take_app.
    + intros ->. reflexivity.
  - intros Hlen. apply resolvedPath_kept. left. exact Hlen.
Qed.

End strip_base_path.

Section response.

Lemma NewAdapterResponse_eq (r : Http.Response.t) :
  Http.failure (Http.Response.Body r) = None →
  AdapterResponse.NewAdapterResponse r =
    let rb := Http.data (Http.Response.Body r) in
    Ok {| AdapterResponse.StatusCode := Http.Response.StatusCode r;
          AdapterResponse.StatusDescription := "";
          AdapterResponse.Headers := ∅;
          AdapterResponse.MultiValueHeaders := Http.Response.Header r;
          AdapterResponse.Body :=
            if Utf8.Valid rb then String.string_of_list_byte rb
            else Base64.EncodeToString rb;
          AdapterResponse.IsBase64Encoded := negb (Utf8.Valid rb) |}.
Proof.
  intros Hf. unfold AdapterResponse.NewAdapterResponse, Http.ReadAll.
  rewrite Hf. cbn zeta. destruct (Utf8.Valid _); reflexivity.
Qed.

Lemma NewAdapterResponse_failure (r : Http.Response.t) err :
  Http.failure (Http.Response.Body r) = Some err →
  AdapterResponse.NewAdapterResponse r
    = Fail (Wrap err "Unable to read response body").
Proof.
  intros Hf. unfold AdapterResponse.NewAdapterResponse, Http.ReadAll.
  rewrite Hf. reflexivity.
Qed.

(** ** C3 *)

(** C3. For a response whose body is read to its end: when the bytes are
    valid UTF-8 the flag is false and the output body is the bytes as a
    string; otherwise the flag is true and decoding the output body as
    base64 gives the bytes back. Two responses with the same body get the
    same output body and flag, whatever their headers and status are. *)
Theorem NewAdapterResponse_body_encoding (r : Http.Response.t) :
  Http.failure (Http.Response.Body r) = None →
  ∃ resp,
    AdapterResponse.NewAdapterResponse r = (Some resp, None)
    ∧ (Utf8.Valid (Http.data (Http.Response.Body r)) = true →
       AdapterResponse.IsBase64Encoded resp = false
       ∧ AdapterResponse.Body resp
         = String.string_of_list_byte (Http.data (Http.Response.Body r))
       ∧ String.list_byte_of_string (AdapterResponse.Body resp)
         = Http.data (Http.Response.Body r))
    ∧ (Utf8.Valid (Http.data (Http.Response.Body r)) = false →
       AdapterResponse.IsBase64Encoded resp = true
       ∧ Base64.DecodeString (AdapterResponse.Body resp)
         = inl (Http.data (Http.Response.Body r)))
    ∧ (∀ r' resp',
         Http.Response.Body r' = Http.Response.Body r →
         AdapterResponse.NewAdapterResponse r' = (Some resp', None) →
         AdapterResponse.Body resp' = AdapterResponse.Body resp
         ∧ AdapterResponse.IsBase64Encoded resp'
           = AdapterResponse.IsBase64Encoded resp).
Proof.
  intros Hf. rewrite NewAdapterResponse_eq by assumption.
  eexists. split; [reflexivity|].
  cbn [AdapterResponse.Body AdapterResponse.IsBase64Encoded].
  split; [|split].
  - intros Hv. rewrite Hv. repeat split.
    apply String.list_byte_of_string_of_list_byte.
  - intros Hv. rewrite Hv. split; [reflexivity|].
    apply DecodeString_EncodeToString.
  - intros r' resp' Hb Hr'.
    rewrite NewAdapterResponse_eq in Hr' by (rewrite Hb; exact Hf).
    injection Hr' as <-. cbn. rewrite Hb. split; reflexivity.
Qed.

(** ** C6 *)

(** C6. The response built from a captured HTTP response has an empty
    single-value header map, an empty status description, and the headers
    of the HTTP response as its multi-value header map. Its API Gateway
    shape has an empty single-value header map and the same multi-value
    headers, status, body and flag, and no status description; its load
    balancer shape has the same six fields. Neither accessor fails.

    The two accessors do so for every [AdapterResponse], not only for one
    that [NewAdapterResponse] built: the API Gateway shape of [ar] has an
    empty single-value header map whatever [ar.Headers] holds, takes its
    other four fields from [ar], and so depends neither on [ar.Headers]
    nor on [ar.StatusDescription]; the load balancer shape of [ar] has the
    six fields of [ar], each under its own name, so that [ar] is read back
    from it. *)
Theorem response_header_maps (r : Http.Response.t) (ar : AdapterResponse.t) :
  (Http.failure (Http.Response.Body r) = None →
   ∃ resp,
     AdapterResponse.NewAdapterResponse r = (Some resp, None)
     ∧ AdapterResponse.Headers resp = ∅
     ∧ AdapterResponse.StatusDescription resp = ""
     ∧ AdapterResponse.MultiValueHeaders resp = Http.Response.Header r
     ∧ AdapterResponse.APIGatewayProxyResponse resp =
         ({| Events.APIGatewayProxyResponse.StatusCode :=
               Http.Response.StatusCode r;
             Events.APIGatewayProxyResponse.Headers := ∅;
             Events.APIGatewayProxyResponse.MultiValueHeaders :=
               Http.Response.Header r;
             Events.APIGatewayProxyResponse.Body := AdapterResponse.Body resp;
             Events.APIGatewayProxyResponse.IsBase64Encoded :=
               AdapterResponse.IsBase64Encoded resp |}, None)
     ∧ AdapterResponse.ALBTargetGroupResponse resp =
         ({| Events.ALBTargetGroupResponse.StatusCode :=
               Http.Response.StatusCode r;
             Events.ALBTargetGroupResponse.StatusDescription := "";
             Events.ALBTargetGroupResponse.Headers := ∅;
             Events.ALBTargetGroupResponse.MultiValueHeaders :=
               Http.Response.Header r;
             Events.ALBTargetGroupResponse.Body := AdapterResponse.Body resp;
             Events.ALBTargetGroupResponse.IsBase64Encoded :=
               AdapterResponse.IsBase64Encoded resp |}, None))
  ∧ AdapterResponse.APIGatewayProxyResponse ar =
      ({| Events.APIGatewayProxyResponse.StatusCode :=
            AdapterResponse.StatusCode ar;
          Events.APIGatewayProxyResponse.Headers := ∅;
          Events.APIGatewayProxyResponse.MultiValueHeaders :=
            AdapterResponse.MultiValueHeaders ar;
          Events.APIGatewayProxyResponse.Body := AdapterResponse.Body ar;
          Events.APIGatewayProxyResponse.IsBase64Encoded :=
            AdapterResponse.IsBase64Encoded ar |}, None)
  ∧ (∀ ar',
       AdapterResponse.StatusCode ar' = AdapterResponse.StatusCode ar →
       AdapterResponse.MultiValueHeaders ar'
         = AdapterResponse.MultiValueHeaders ar →
       AdapterResponse.Body ar' = AdapterResponse.Body ar →
       AdapterResponse.IsBase64Encoded ar'
         = AdapterResponse.IsBase64Encoded ar →
       AdapterResponse.APIGatewayProxyResponse ar'
       = AdapterResponse.APIGatewayProxyResponse ar)
  ∧ AdapterResponse.ALBTargetGroupResponse ar =
      ({| Events.ALBTargetGroupResponse.StatusCode :=
            AdapterResponse.StatusCode ar;
          Events.ALBTargetGroupResponse.StatusDescription :=
            AdapterResponse.StatusDescription ar;
          Events.ALBTargetGroupResponse.Headers :=
            AdapterResponse.Headers ar;
          Events.ALBTargetGroupResponse.MultiValueHeaders :=
            AdapterResponse.MultiValueHeaders ar;
          Events.ALBTargetGroupResponse.Body := AdapterResponse.Body ar;
          Events.ALBTargetGroupResponse.IsBase64Encoded :=
            AdapterResponse.IsBase64Encoded ar |}, None)
  ∧ (∀ ar',
       AdapterResponse.ALBTargetGroupResponse ar'
       = AdapterResponse.ALBTargetGroupResponse ar →
       ar' = ar).
Proof.
  split; [|split; [|split; [|split]]].
  - intros Hf. rewrite NewAdapterResponse_eq by assumption.
    eexists. split; [reflexivity|]. repeat split.
  - reflexivity.
  - intros ar' Hcode Hmulti Hbody Hflag.
    unfold AdapterResponse.APIGatewayProxyResponse.
    rewrite Hcode, Hmulti, Hbody, Hflag. reflexivity.
  - reflexivity.
  - intros ar' Heq. destruct ar, ar'.
    unfold AdapterResponse.ALBTargetGroupResponse in Heq.
    cbn in Heq. injection Heq as -> -> -> -> -> ->. reflexivity.
Qed.

End response.

Section body.
Context `{Platform}.

Lemma endOfInput_error src si out e :
  Base64.endOfInput src si out = inr e → ∃ off, e = CorruptInputError off.
Proof.
  unfold Base64.endOfInput. destruct (Base64.skipNewlines src si) as [[|c l] si'].
  - discriminate.
  - intros [= <-]. eauto.
Qed.

(** Every error of the decoder is a [CorruptInputError]. *)
Lemma decode_error src : ∀ si dbuf e,
  Base64.decode src si dbuf = inr e → ∃ off, e = CorruptInputError off.
Proof.
  induction src as [|c src IH]; intros si dbuf e.
  - cbn. destruct dbuf; [discriminate|]. intros [= <-]. eauto.
  - cbn [Base64.decode]. cbv zeta.
    destruct (negb (Base64.decodeMap c =? 255)).
    { destruct dbuf as [|d0 [|d1 [|d2 [|d3 dbuf]]]]; try apply IH.
      destruct (Base64.decode src (si + 1) []) as [bs|e'] eqn:Hd;
        [discriminate|].
      intros [= <-]. eapply IH, Hd. }
    destruct (Base64.isNewline c); [apply IH|].
    destruct (negb (Byte.eqb c Base64.padChar)); [intros [= <-]; eauto|].
    destruct dbuf as [|d0 [|d1 [|d2 [|d3 dbuf]]]];
      try (intros [= <-]; eauto; fail).
    + destruct (Base64.skipNewlines src (si + 1)) as [[|c2 rest2] si1];
        [intros [= <-]; eauto|].
      destruct (negb (Byte.eqb c2 Base64.padChar)); [intros [= <-]; eauto|].
      apply endOfInput_error.
    + apply endOfInput_error.
Qed.

Lemma ToRequest_Fail sched env (ar : AdapterRequest.t) e :
  decodedBody ar = inr e → ToRequest sched env ar = (ar, Fail e).
Proof. intros Hd. rewrite ToRequest_eq, Hd. reflexivity. Qed.

(** ** C4 *)

(** C4. Without the base64 flag the body of any request produced is the
    body text byte for byte. With the flag and a body that decodes, it is
    the decoded bytes; in particular the bytes that were encoded are
    recovered. With the flag and a body that does not decode, the call
    returns no request and the decoder's [CorruptInputError], and leaves
    the receiver as it was. A request is produced whenever the body is
    usable and [http.NewRequest] accepts the method and the URL. *)
Theorem ToRequest_body_decoding sched env (ar : AdapterRequest.t) :
  (IsBase64Encoded ar = false →
     ∀ ar' req, ToRequest sched env ar = (ar', Ok req) →
       Http.Request.Body req = String.list_byte_of_string (Body ar)
       ∧ String.string_of_list_byte (Http.Request.Body req) = Body ar)
  ∧ (IsBase64Encoded ar = true →
     ∀ bs, Base64.DecodeString (Body ar) = inl bs →
       ∀ ar' req, ToRequest sched env ar = (ar', Ok req) →
         Http.Request.Body req = bs)
  ∧ (IsBase64Encoded ar = true →
     ∀ bs, Body ar = Base64.EncodeToString bs →
       ∀ ar' req, ToRequest sched env ar = (ar', Ok req) →
         Http.Request.Body req = bs)
  ∧ (IsBase64Encoded ar = true →
     ∀ e, Base64.DecodeString (Body ar) = inr e →
       ToRequest sched env ar = (ar, (None, Some e))
       ∧ ∃ offset, e = CorruptInputError offset)
  ∧ (∀ body r,
       decodedBody ar = inl body →
       Http.NewRequest (Strings.ToUpper unicodeUpper (HTTPMethod ar))
         (Path ar +:+ querySuffix sched ar) body = inl r →
       ∃ ar' req, ToRequest sched env ar = (ar', Ok req)).
Proof.
  split; [|split; [|split; [|split]]].
  - intros Hflag ar' req Hok.
    apply ToRequest_Ok in Hok as (body & Hd & _ & _ & Hbody & _).
    unfold decodedBody in Hd. rewrite Hflag in Hd. injection Hd as <-.
    rewrite Hbody. split; [reflexivity|].
    apply String.string_of_list_byte_of_string.
  - intros Hflag bs Hdec ar' req Hok.
    apply ToRequest_Ok in Hok as (body & Hd & _ & _ & Hbody & _).
    unfold decodedBody in Hd. rewrite Hflag, Hdec in Hd. congruence.
  - intros Hflag bs Henc ar' req Hok.
    apply ToRequest_Ok in Hok as (body & Hd & _ & _ & Hbody & _).
    unfold decodedBody in Hd.
    rewrite Hflag, Henc, DecodeString_EncodeToString in Hd. congruence.
  - intros Hflag e Hdec. split.
    + apply ToRequest_Fail. unfold decodedBody. rewrite Hflag. exact Hdec.
    + eapply decode_error, Hdec.
  - intros body r Hd Hnew. rewrite ToRequest_eq, Hd. cbn zeta.
    cbn [Path setPath]. rewrite Hnew. eauto.
Qed.

End body.

Section receiver.
Context `{Platform}.

Lemma str_append_same_l s t : s +:+ t = s → t = "".
Proof.
  intros E. rewrite <- (str_append_nil_r s) in E at 2.
  apply (inj (String.append s)) in E. exact E.
Qed.

Lemma ToRequest_receiver sched env (ar : AdapterRequest.t) body :
  decodedBody ar = inl body →
  (ToRequest sched env ar).1 = setPath ar (Path ar +:+ querySuffix sched ar).
Proof. intros Hd. rewrite ToRequest_eq, Hd. reflexivity. Qed.

Lemma querySuffix_nonempty sched (ar : AdapterRequest.t) :
  (0 < size (MultiValueQueryStringParameters ar))%nat
  ∨ (0 < size (QueryStringParameters ar))%nat →
  querySuffix sched ar = "?" +:+ queryString sched ar.
Proof.
  intros Hne. unfold querySuffix.
  destruct (Nat.ltb_spec 0 (size (MultiValueQueryStringParameters ar)));
    [reflexivity|].
  destruct (Nat.ltb_spec 0 (size (QueryStringParameters ar)));
    [reflexivity|]. lia.
Qed.

(** The request does not depend on the stored base path or on the
    environment: the path that [ToRequest] resolves from them is not the
    one it hands to [http.NewRequest]. *)
Lemma ToRequest_ignores_base_path_and_host sched env env'
    (ar : AdapterRequest.t) p :
  (ToRequest sched env' (setStripBasePath ar p)).2 = (ToRequest sched env ar).2.
Proof.
  rewrite !ToRequest_eq.
  change (decodedBody (setStripBasePath ar p)) with (decodedBody ar).
  destruct (decodedBody ar); reflexivity.
Qed.

(** ** C9 *)

(** C9. When the body is usable (not flagged as base64, or valid base64)
    and one of the two query maps is not empty, a call of [ToRequest]
    leaves the receiver with ["?"] and the reconstructed query string
    appended to its path, so the receiver has changed; a second call on
    that receiver appends a second ["?"] and query string, and the URL of
    each request produced is the receiver's path after the call. *)
Theorem ToRequest_appends_query_to_receiver s1 s2 env (ar : AdapterRequest.t) :
  (IsBase64Encoded ar = false ∨ ∃ body, Base64.DecodeString (Body ar) = inl body) →
  (0 < size (MultiValueQueryStringParameters ar))%nat
  ∨ (0 < size (QueryStringParameters ar))%nat →
  let ar1 := (ToRequest s1 env ar).1 in
  let ar2 := (ToRequest s2 env ar1).1 in
  Path ar1 = Path ar +:+ "?" +:+ queryString s1 ar
  ∧ ar1 ≠ ar
  ∧ ar1 = setPath ar (Path ar1)
  ∧ Path ar2
    = Path ar +:+ "?" +:+ queryString s1 ar +:+ "?" +:+ queryString s2 ar
  ∧ (∀ req, (ToRequest s1 env ar).2 = Ok req →
            Http.Request.RawURL req = Path ar1)
  ∧ (∀ req, (ToRequest s2 env ar1).2 = Ok req →
            Http.Request.RawURL req = Path ar2).
Proof.
  intros Hbody Hne ar1 ar2.
  assert (∃ body, decodedBody ar = inl body) as [body Hd].
  { unfold decodedBody. destruct Hbody as [->|[body Hb]]; [eauto|].
    destruct (IsBase64Encoded ar); eauto. }
  assert (Har1 : ar1 = setPath ar (Path ar +:+ "?" +:+ queryString s1 ar)).
  { unfold ar1. rewrite (ToRequest_receiver _ _ _ _ Hd).
    rewrite querySuffix_nonempty by assumption. reflexivity. }
  assert (Hd1 : decodedBody ar1 = inl body) by (rewrite Har1; exact Hd).
  assert (Har2 : ar2 = setPath ar1 (Path ar1 +:+ "?" +:+ queryString s2 ar)).
  { unfold ar2. rewrite (ToRequest_receiver _ _ _ _ Hd1).
    rewrite querySuffix_nonempty by (rewrite Har1; exact Hne).
    rewrite Har1. reflexivity. }
  split; [rewrite Har1; reflexivity|].
  split.
  { intros E. rewrite E in Har1. apply (f_equal Path) in Har1.
    cbn [Path setPath] in Har1. symmetry in Har1.
    apply str_append_same_l in Har1. discriminate. }
  split; [rewrite Har1; reflexivity|].
  split.
  { rewrite Har2, Har1. cbn [Path setPath]. rewrite !str_append_assoc.
    reflexivity. }
  split.
  - intros req Hreq.
    destruct (ToRequest s1 env ar) as [a res] eqn:Hcall. cbn in Hreq, ar1.
    subst res. apply ToRequest_Ok in Hcall as (_ & _ & -> & -> & _).
    reflexivity.
  - intros req Hreq.
    destruct (ToRequest s2 env ar1) as [a res] eqn:Hcall. cbn in Hreq, ar2.
    subst res. apply ToRequest_Ok in Hcall as (_ & _ & -> & -> & _).
    reflexivity.
Qed.

End receiver.

Section proxy.
Context `{Platform}.

(** [ToRequest] returns a request or an error, never both, never neither. *)
Lemma ToRequest_result sched env (ar : AdapterRequest.t) :
  (∃ req, (ToRequest sched env ar).2 = Ok req)
  ∨ (∃ e, (ToRequest sched env ar).2 = Fail e).
Proof.
  rewrite ToRequest_eq. destruct (decodedBody ar) as [body|e]; [|right; eauto].
  cbn zeta. destruct (Http.NewRequest _ _ _) as [r|e]; cbn; eauto.
Qed.

(** The response recorded by a handler is always translated. *)
Lemma recorded_response_translates (w : Httptest.ResponseRecorder) :
  ∃ resp,
    AdapterResponse.NewAdapterResponse (Httptest.Result (Httptest.Flush w))
      = Ok resp.
Proof. rewrite NewAdapterResponse_eq by reflexivity. eauto. Qed.

(** ** C8 *)

(** C8. Whenever [Proxy] returns, it returns either a response and no
    error, the response being the translation of what the handler recorded
    for the request that [ToRequest] built, or no response and the error of
    [ToRequest] wrapped with the name of that phase; it never returns a
    response next to an error, nor neither. [Proxy] returns whenever the
    handler does, and it ends as the handler ends otherwise. *)
Theorem Proxy_all_or_nothing sched env (ar : AdapterRequest.t) (c : Ctx)
    (handler : Handler) :
  (∀ ar' out,
     Proxy sched env ar c handler = returns (ar', out) →
     ar' = (ToRequest sched env ar).1
     ∧ ((∃ resp req w,
           out = (Some resp, None)
           ∧ (ToRequest sched env ar).2 = Ok req
           ∧ handler (Http.WithContext req c) Httptest.NewRecorder = returns w
           ∧ AdapterResponse.NewAdapterResponse
               (Httptest.Result (Httptest.Flush w)) = Ok resp)
        ∨ (∃ e,
             out = (None,
                    Some (Wrap e
                      "Unable to convert AdapterRequest to http.Request"))
             ∧ (ToRequest sched env ar).2 = Fail e)))
  ∧ ((∀ r w, ∃ w', handler r w = returns w') →
     ∃ ar' out, Proxy sched env ar c handler = returns (ar', out))
  ∧ (Proxy sched env ar c handler = blocks →
     ∃ req, (ToRequest sched env ar).2 = Ok req
            ∧ handler (Http.WithContext req c) Httptest.NewRecorder = blocks)
  ∧ (Proxy sched env ar c handler = panics →
     ∃ req, (ToRequest sched env ar).2 = Ok req
            ∧ handler (Http.WithContext req c) Httptest.NewRecorder = panics).
Proof.
  unfold Proxy.
  destruct (ToRequest sched env ar) as [ar1 res] eqn:Hcall.
  pose proof (ToRequest_result sched env ar) as Hres.
  rewrite Hcall in Hres. cbn [fst snd] in *.
  destruct Hres as [[req ->]|[e ->]]; unfold Ok, Fail.
  - unfold requestDoneHandler.
    destruct (handler (Http.WithContext req c) Httptest.NewRecorder)
      as [w| |] eqn:Hh.
    + cbn [recv].
      destruct (recorded_response_translates w) as [resp Hresp].
      rewrite Hresp. unfold Ok.
      split; [|split; [|split]]; try discriminate; [|eauto].
      intros ar' out [= <- <-]. split; [reflexivity|].
      left. exists resp, req, w. auto.
    + split; [|split; [|split]]; try discriminate; [|eauto].
      intros Hall.
      destruct (Hall (Http.WithContext req c) Httptest.NewRecorder)
        as [w' Hw']. congruence.
    + split; [|split; [|split]]; try discriminate; [|eauto].
      intros Hall.
      destruct (Hall (Http.WithContext req c) Httptest.NewRecorder)
        as [w' Hw']. congruence.
  - split; [|split; [|split]]; try discriminate; [|eauto].
    intros ar' out [= <- <-]. split; [reflexivity|]. right. eauto.
Qed.

End proxy.

(** * The definitions at work *)

Example Valid_ex :
  Utf8.Valid (String.list_byte_of_string "Hello World!") = true
  ∧ Utf8.Valid [xc3; xa9] = true ∧ Utf8.Valid [xff] = false
  ∧ Utf8.Valid [xc0; x80] = false ∧ Utf8.Valid [xed; xa0; x80] = false
  ∧ Utf8.Valid [xe2; x82] = false ∧ Utf8.Valid [xf0; x9f; x98; x80] = true.
Proof. repeat split; reflexivity. Qed.

Example Encode_ex :
  Base64.EncodeToString (String.list_byte_of_string "Hello World!")
    = "SGVsbG8gV29ybGQh"
  ∧ Base64.EncodeToString [xff] = "/w=="
  ∧ Base64.EncodeToString [xff; xfe] = "//4=".
Proof. repeat split; reflexivity. Qed.

Example Decode_ex :
  Base64.DecodeString "SGVsbG8gV29ybGQh"
    = inl (String.list_byte_of_string "Hello World!")
  ∧ Base64.DecodeString "/w==" = inl [xff]
  ∧ Base64.DecodeString "//4=" = inl [xff; xfe]
  ∧ Base64.DecodeString "!!!" = inr (CorruptInputError 0)
  ∧ Base64.DecodeString "abc" = inr (CorruptInputError 0)
  ∧ Base64.DecodeString "ab=c" = inr (CorruptInputError 2)
  ∧ Base64.DecodeString "abcd=" = inr (CorruptInputError 4)
  ∧ Base64.DecodeString "abcde" = inr (CorruptInputError 4).
Proof. repeat split; vm_compute; reflexivity. Qed.

Example strings_ex :
  Strings.HasPrefix "/base/x" "/base" = true
  ∧ Strings.HasSuffix "/base/" "/" = true
  ∧ Strings.HasSuffix "/base" "/" = false
  ∧ Strings.Replace1 "/a/b/a/b" "/a" "" = "/b/a/b"
  ∧ Strings.Trim "  a b " " " = "a b"
  ∧ Strings.Trim "   " " " = ""
  ∧ Url.QueryEscape "a&b=c d/é~" = "a%26b%3Dc+d%2F%C3%A9~"
  ∧ Textproto.CanonicalMIMEHeaderKey "content-type" = "Content-Type"
  ∧ Textproto.CanonicalMIMEHeaderKey "X-API-key" = "X-Api-Key"
  ∧ Textproto.CanonicalMIMEHeaderKey "bad key" = "bad key".
Proof. repeat split; reflexivity. Qed.

Example searchRequest_ex :
  AdapterRequest.ToRequest searchSchedule ∅ searchEvent
  = (setPath searchEvent "/search?tag=a%26b&tag=c+d", Ok searchRequest).
Proof. vm_compute. reflexivity. Qed.

Example NewAdapterResponse_ex :
  ∃ resp,
    AdapterResponse.NewAdapterResponse textResponse = Ok resp
    ∧ AdapterResponse.StatusCode resp = 200
    ∧ AdapterResponse.Body resp = "Hello World!"
    ∧ AdapterResponse.IsBase64Encoded resp = false.
Proof. eexists. vm_compute. repeat split. Qed.

Example stripped_path_unused_ex :
  resolvedPath versionedEvent = "/items"
  ∧ absolutePath helloEnv versionedEvent = "https://example.com/items"
  ∧ ∃ ar req,
      ToRequest noKeys helloEnv versionedEvent = (ar, Ok req)
      ∧ Http.Request.Method req = "POST"
      ∧ Http.Request.RawURL req = "/v1/items".
Proof.
  split; [reflexivity|]. split; [reflexivity|].
  eexists _, _. vm_compute. repeat split.
Qed.

Example Proxy_ex :
  ∃ ar resp,
    Proxy noKeys helloEnv (@event plainPlatform tt "/" "GET") tt
      noContentHandler = returns (ar, Ok resp)
    ∧ AdapterResponse.StatusCode resp = 204
    ∧ AdapterResponse.Body resp = ""
    ∧ AdapterResponse.IsBase64Encoded resp = false.
Proof. eexists _, _. vm_compute. repeat split. Qed.

(** [noContentHandler] returns on every recorder: 204 has three digits. *)
Lemma noContentHandler_returns r w : ∃ w', noContentHandler r w = returns w'.
Proof.
  unfold noContentHandler, Httptest.WriteHeader.
  destruct (Httptest.wroteHeader w); eexists; reflexivity.
Qed.

(** * The theorems at concrete inputs *)

(** The base path [/v1] is removed from [/v1/items]; the stored base path
    [/] leaves [//x] alone. *)
Lemma resolvedPath_strips_once_at_v1 :
  resolvedPath versionedEvent = "/items"
  ∧ resolvedPath doubleSlashEvent = "//x".
Proof.
  split.
  - apply (proj1 (resolvedPath_strips_once versionedEvent) "/items").
    + vm_compute. lia.
    + reflexivity.
  - apply (proj1 (proj2 (resolvedPath_strips_once doubleSlashEvent))).
    left. vm_compute. lia.
Defined.

(** C2 as stated fails for the stored base path ["/"]: the event path
    [//x] starts with it, and the resolved path is still [//x], not the
    [/x] left by removing one occurrence; the URL of the request is [//x]
    as well. *)
Lemma single_slash_base_path_kept :
  stripBasePath doubleSlashEvent = "/"
  ∧ Path doubleSlashEvent = stripBasePath doubleSlashEvent +:+ "/x"
  ∧ Strings.HasPrefix (Path doubleSlashEvent) (stripBasePath doubleSlashEvent)
    = true
  ∧ resolvedPath doubleSlashEvent = "//x"
  ∧ resolvedPath doubleSlashEvent ≠ withSlash "/x"
  ∧ ∃ req, (ToRequest noKeys ∅ doubleSlashEvent).2 = Ok req
           ∧ Http.Request.RawURL req = "//x".
Proof.
  repeat split; try discriminate.
  eexists. split; vm_compute; reflexivity.
Qed.

(** A binary body comes out as base64 that decodes to the same bytes. *)
Lemma NewAdapterResponse_body_encoding_at_binary :
  ∃ resp,
    AdapterResponse.NewAdapterResponse binaryResponse = (Some resp, None)
    ∧ AdapterResponse.IsBase64Encoded resp = true
    ∧ Base64.DecodeString (AdapterResponse.Body resp) = inl [xff; xfe].
Proof.
  destruct (NewAdapterResponse_body_encoding binaryResponse eq_refl)
    as (resp & Hresp & _ & Hbinary & _).
  exists resp. split; [exact Hresp|]. apply Hbinary. reflexivity.
Defined.

(** The base64 body [//4=] reaches the request as the bytes [ff fe]. *)
Lemma ToRequest_body_decoding_at_v1 :
  ∃ ar' req,
    ToRequest noKeys ∅ versionedEvent = (ar', Ok req)
    ∧ Http.Request.Body req = [xff; xfe].
Proof.
  destruct (ToRequest_body_decoding noKeys ∅ versionedEvent)
    as (_ & Hdecoded & _ & _ & Hproduced).
  edestruct (Hproduced [xff; xfe]) as (ar' & req & Hok);
    [reflexivity|vm_compute; reflexivity|].
  exists ar', req. split; [exact Hok|].
  exact (Hdecoded eq_refl [xff; xfe] eq_refl ar' req Hok).
Defined.


(** The response made of [textResponse] carries its headers in the
    multi-value map only. The API Gateway shape of [describedResponse]
    has no single-value header although [describedResponse] has one; its
    load balancer shape keeps the header and the status description. *)
Lemma response_header_maps_at_text :
  (∃ resp,
     AdapterResponse.NewAdapterResponse textResponse = (Some resp, None)
     ∧ AdapterResponse.Headers resp = ∅
     ∧ AdapterResponse.MultiValueHeaders resp
       = {[ "Content-Type" := ["application/octet-stream"] ]})
  ∧ AdapterResponse.APIGatewayProxyResponse describedResponse
    = ({| Events.APIGatewayProxyResponse.StatusCode := 404;
          Events.APIGatewayProxyResponse.Headers := ∅;
          Events.APIGatewayProxyResponse.MultiValueHeaders :=
            {[ "Set-Cookie" := ["a=1"; "b=2"] ]};
          Events.APIGatewayProxyResponse.Body := "not found";
          Events.APIGatewayProxyResponse.IsBase64Encoded := false |}, None)
  ∧ AdapterResponse.ALBTargetGroupResponse describedResponse
    = ({| Events.ALBTargetGroupResponse.StatusCode := 404;
          Events.ALBTargetGroupResponse.StatusDescription := "404 Not Found";
          Events.ALBTargetGroupResponse.Headers :=
            {[ "Content-Type" := "text/plain" ]};
          Events.ALBTargetGroupResponse.MultiValueHeaders :=
            {[ "Set-Cookie" := ["a=1"; "b=2"] ]};
          Events.ALBTargetGroupResponse.Body := "not found";
          Events.ALBTargetGroupResponse.IsBase64Encoded := false |}, None).
Proof.
  destruct (response_header_maps textResponse describedResponse)
    as (Hnew & Hapi & _ & Halb & _).
  destruct (Hnew eq_refl) as (resp & Hresp & Hsingle & _ & Hmulti & _).
  split; [|split].
  - exists resp. split; [exact Hresp|]. split; [exact Hsingle|exact Hmulti].
  - exact Hapi.
  - exact Halb.
Defined.

(** The header [content-type] of [searchEvent] is found under
    [Content-Type]. *)
Lemma ToRequest_headers_at_search :
  "text/plain" ∈ Http.values (Http.Request.Header searchRequest) "Content-Type".
Proof.
  refine (proj1 (ToRequest_headers searchSchedule ∅ searchEvent
                   (setPath searchEvent "/search?tag=a%26b&tag=c+d")
                   searchRequest _ _) "content-type" "text/plain" eq_refl).
  - unfold range_order. vm_compute. reflexivity.
  - vm_compute. reflexivity.
Defined.

(** C7 as stated fails for the entry [content-type: text/plain]: the
    request holds the value under the key [Content-Type] and has no key
    [content-type]. *)
Lemma header_key_not_verbatim :
  Headers searchEvent !! "content-type" = Some "text/plain"
  ∧ (ToRequest searchSchedule ∅ searchEvent).2 = Ok searchRequest
  ∧ Http.Request.Header searchRequest !! "content-type" = None
  ∧ Http.Request.Header searchRequest !! "Content-Type" = Some ["text/plain"].
Proof. repeat split; vm_compute; reflexivity. Qed.

(** [Proxy] on the root event with a handler that answers [204] returns
    a response and no error. *)
Lemma Proxy_all_or_nothing_at_root :
  ∃ ar' resp,
    Proxy noKeys helloEnv (@event plainPlatform tt "/" "GET") tt
      noContentHandler = returns (ar', (Some resp, None))
    ∧ Httptest.WriteHeader Httptest.NewRecorder 204 = returns noContentRecorder
    ∧ AdapterResponse.NewAdapterResponse
        (Httptest.Result (Httptest.Flush noContentRecorder))
      = Ok resp.
Proof.
  destruct (Proxy_all_or_nothing noKeys helloEnv
              (@event plainPlatform tt "/" "GET") tt noContentHandler)
    as (Hreturned & Hreturns & _ & _).
  destruct (Hreturns noContentHandler_returns) as (ar' & out & Hp).
  destruct (Hreturned ar' out Hp)
    as (_ & [(resp & req & w & -> & _ & Hw & Hresp)|(e & _ & He)]).
  - exists ar', resp. split; [exact Hp|]. split; [reflexivity|].
    change (returns noContentRecorder = returns w) in Hw.
    injection Hw as <-. exact Hresp.
  - vm_compute in He. discriminate He.
Defined.

(** Two calls on [searchEvent] leave the query string twice in its path. *)
Lemma ToRequest_appends_query_to_receiver_at_search :
  Path (ToRequest searchSchedule ∅
          (ToRequest searchSchedule ∅ searchEvent).1).1
  = "/search?tag=a%26b&tag=c+d?tag=a%26b&tag=c+d".
Proof.
  apply (ToRequest_appends_query_to_receiver searchSchedule searchSchedule
           ∅ searchEvent).
  - left. reflexivity.
  - left. vm_compute. lia.
Defined.

(** C9 as stated fails for [brokenEvent]: its query maps are not empty,
    and the call, which fails on the body, leaves the path of the
    receiver as it was. *)
Lemma undecodable_body_keeps_receiver :
  (0 < size (MultiValueQueryStringParameters brokenEvent))%nat
  ∧ ToRequest searchSchedule ∅ brokenEvent
    = (brokenEvent, (None, Some (CorruptInputError 0)))
  ∧ Path (ToRequest searchSchedule ∅ brokenEvent).1 = "/search".
Proof. repeat split; vm_compute; reflexivity || lia. Qed.

(** [StripBasePath] on spaces and on [v1/]. *)
Lemma StripBasePath_normalizes_at_v1 :
  StripBasePath searchEvent "  " = (setStripBasePath searchEvent "", "")
  ∧ (∃ n, StripBasePath searchEvent "v1/" = (setStripBasePath searchEvent n, n)
          ∧ n = "/v1")
  ∧ resolvedPath doubleSlashEvent = withSlash (Path doubleSlashEvent).
Proof.
  split; [|split].
  - exact (proj1 (StripBasePath_normalizes searchEvent "  ") eq_refl).
  - destruct (proj1 (proj2 (StripBasePath_normalizes searchEvent "v1/")) eq_refl)
      as (n & Hn & _ & Hslash & _).
    exists n. split; [exact Hn|]. exact (Hslash "/v1" eq_refl).
  - apply (proj2 (proj2 (StripBasePath_normalizes doubleSlashEvent ""))).
    vm_compute. lia.
Defined.

(** * Further properties *)

Section request_more.
Context `{Platform}.

Lemma querySuffix_shape sched (ar : AdapterRequest.t) :
  querySuffix sched ar = "" ∨ Strings.HasPrefix (querySuffix sched ar) "?" = true.
Proof.
  unfold querySuffix. destruct (_ || _); [right|left; reflexivity].
  apply str_prefix_app.
Qed.

Lemma querySuffix_empty sched (ar : AdapterRequest.t) :
  size (MultiValueQueryStringParameters ar) = 0%nat →
  size (QueryStringParameters ar) = 0%nat →
  querySuffix sched ar = "".
Proof. unfold querySuffix. intros -> ->. reflexivity. Qed.

(** X1. [ToRequest] changes nothing of its receiver but the path, and the
    path only by appending: the receiver after the call is the receiver
    before it with a suffix added to its path, the suffix being empty or
    starting with ["?"]. The suffix is appended as soon as the body is
    usable, also when [http.NewRequest] then rejects the method or the
    URL; with both query maps empty the receiver is left as it was. *)
Theorem ToRequest_frame sched env (ar : AdapterRequest.t) :
  (∃ suffix,
     (ToRequest sched env ar).1 = setPath ar (Path ar +:+ suffix)
     ∧ (suffix = "" ∨ Strings.HasPrefix suffix "?" = true))
  ∧ (∀ body, decodedBody ar = inl body →
       (ToRequest sched env ar).1
       = setPath ar (Path ar +:+ querySuffix sched ar))
  ∧ (size (MultiValueQueryStringParameters ar) = 0%nat →
     size (QueryStringParameters ar) = 0%nat →
     (ToRequest sched env ar).1 = ar).
Proof.
  split; [|split].
  - rewrite ToRequest_eq. destruct (decodedBody ar) as [body|e].
    + exists (querySuffix sched ar). split; [reflexivity|].
      apply querySuffix_shape.
    + exists "". split; [|left; reflexivity].
      cbn [fst]. rewrite str_append_nil_r, setPath_id. reflexivity.
  - intros body Hd. apply (ToRequest_receiver _ _ _ _ Hd).
  - intros Hmv Hq. rewrite ToRequest_eq.
    destruct (decodedBody ar) as [body|e]; [|reflexivity].
    cbn [fst]. rewrite querySuffix_empty, str_append_nil_r, setPath_id by assumption.
    reflexivity.
Qed.

Lemma NewRequest_cases method url body :
  Http.NewRequest method url body =
    let m := if String.eqb method "" then "GET" else method in
    if Http.validMethod m then
      match urlParse url with
      | Some err => inr err
      | None =>
          inl {| Http.Request.Method := m;
                 Http.Request.RawURL := url;
                 Http.Request.Header := ∅;
                 Http.Request.Body := body;
                 Http.Request.ContentLength := Z.of_nat (length body);
                 Http.Request.ctx := Background |}
      end
    else inr (InvalidMethod m).
Proof.
  unfold Http.NewRequest. cbv zeta. destruct (Http.validMethod _); reflexivity.
Qed.

(** X2. The errors of [ToRequest]. An error it returns is the decoder's,
    for a body flagged as base64 that does not decode; or [InvalidMethod],
    for a method that after upper-casing (and [GET] for an empty one) is
    not a token; or the error of [url.Parse] on the receiver's path with
    the query string. Conversely, with a usable body an invalid method
    always gives [InvalidMethod], and with a valid method an error of
    [url.Parse] is returned as it is. *)
Theorem ToRequest_errors sched env (ar : AdapterRequest.t) :
  (∀ e, (ToRequest sched env ar).2 = Fail e →
     (IsBase64Encoded ar = true ∧ Base64.DecodeString (Body ar) = inr e)
     ∨ (Http.validMethod (requestMethod ar) = false
        ∧ e = InvalidMethod (requestMethod ar))
     ∨ (Http.validMethod (requestMethod ar) = true
        ∧ urlParse (Path ar +:+ querySuffix sched ar) = Some e))
  ∧ (∀ body, decodedBody ar = inl body →
       Http.validMethod (requestMethod ar) = false →
       (ToRequest sched env ar).2 = Fail (InvalidMethod (requestMethod ar)))
  ∧ (∀ body e, decodedBody ar = inl body →
       Http.validMethod (requestMethod ar) = true →
       urlParse (Path ar +:+ querySuffix sched ar) = Some e →
       (ToRequest sched env ar).2 = Fail e).
Proof.
  rewrite ToRequest_eq. unfold requestMethod.
  split; [|split].
  - intros e. unfold decodedBody.
    destruct (IsBase64Encoded ar) eqn:Hflag.
    + destruct (Base64.DecodeString (Body ar)) as [body|e'] eqn:Hdec.
      * cbn zeta. cbn [Path setPath snd]. rewrite NewRequest_cases. cbv zeta.
        destruct (Http.validMethod _).
        -- destruct (urlParse _) as [e'|]; [|discriminate].
           intros [= <-]. right. right. auto.
        -- intros [= <-]. right. left. auto.
      * intros [= <-]. left. auto.
    + cbn zeta. cbn [Path setPath snd]. rewrite NewRequest_cases. cbv zeta.
      destruct (Http.validMethod _).
      * destruct (urlParse _) as [e'|]; [|discriminate].
        intros [= <-]. right. right. auto.
      * intros [= <-]. right. left. auto.
  - intros body -> Hm. cbn zeta. cbn [Path setPath snd].
    rewrite NewRequest_cases. cbv zeta. rewrite Hm. reflexivity.
  - intros body e -> Hm Hu. cbn zeta. cbn [Path setPath snd].
    rewrite NewRequest_cases. cbv zeta. rewrite Hm, Hu. reflexivity.
Qed.

Lemma upperByte_not_lower c : Strings.isLower (Strings.upperByte c) = false.
Proof. destruct c as [[] [] [] [] [] [] [] []]; reflexivity. Qed.

Lemma map_upper_no_lower s :
  Strings.forallb (fun c => negb (Strings.isLower c))
    (Strings.map Strings.upperByte s) = true.
Proof.
  induction s as [|c s IH]; [reflexivity|]. cbn [Strings.map Strings.forallb].
  rewrite upperByte_not_lower, IH. reflexivity.
Qed.

(** X3. The fields of a request that [ToRequest] produces: its method is
    the upper-cased event method, [GET] for an event without method, and
    is a valid token; for an ASCII event method it has no lower-case
    letter left. Its content length is the number of body bytes, and its
    context is the background context. *)
Theorem ToRequest_request_fields sched env (ar ar' : AdapterRequest.t)
    (req : Http.Request.t) :
  ToRequest sched env ar = (ar', Ok req) →
  Http.Request.Method req = requestMethod ar
  ∧ Http.validMethod (Http.Request.Method req) = true
  ∧ (HTTPMethod ar = "" → Http.Request.Method req = "GET")
  ∧ (Strings.isASCII (HTTPMethod ar) = true →
     Strings.forallb (fun c => negb (Strings.isLower c))
       (Http.Request.Method req) = true)
  ∧ Http.Request.ContentLength req = Z.of_nat (length (Http.Request.Body req))
  ∧ Http.Request.ctx req = Background.
Proof.
  rewrite ToRequest_eq. destruct (decodedBody ar) as [body|e]; [|discriminate].
  cbn zeta. cbn [Path setPath]. rewrite NewRequest_cases. cbv zeta.
  fold (requestMethod ar).
  destruct (Http.validMethod (requestMethod ar)) eqn:Hvalid; [|discriminate].
  destruct (urlParse _); [discriminate|].
  intros [= _ <-]. cbn [Http.Request.Method Http.setHeader Http.Request.Body
    Http.Request.ContentLength Http.Request.ctx].
  split; [reflexivity|]. split; [exact Hvalid|]. split; [|split; [|split]].
  - intros Hm. unfold requestMethod. rewrite Hm. reflexivity.
  - intros Hascii. unfold requestMethod, Strings.ToUpper. rewrite Hascii.
    destruct (String.eqb _ ""); [reflexivity|apply map_upper_no_lower].
  - reflexivity.
  - reflexivity.
Qed.

(** X4. When [ToRequest] fails, [Proxy] returns its error wrapped without
    running the handler: the result is the same for every handler, also
    for one that would never return or would panic. *)
Theorem Proxy_translation_failure sched env (ar : AdapterRequest.t) (c : Ctx) e :
  (ToRequest sched env ar).2 = Fail e →
  ∀ handler : Handler,
    Proxy sched env ar c handler
    = returns ((ToRequest sched env ar).1,
               Fail (Wrap e "Unable to convert AdapterRequest to http.Request")).
Proof.
  intros He handler. unfold Proxy.
  destruct (ToRequest sched env ar) as [ar1 res]. cbn [fst snd] in *.
  subst res. reflexivity.
Qed.

End request_more.

Section response_more.
Context `{Platform}.

Lemma Valid_ascii l : Forall (fun b => u8 b < 128) l → Utf8.Valid l = true.
Proof.
  induction 1 as [|b l Hb _ IH]; [reflexivity|]. cbn [Utf8.Valid].
  destruct (Z.ltb_spec (u8 b) 128); [exact IH|lia].
Qed.

Lemma encode_ascii v : u8 (Base64.encode v) < 128.
Proof.
  unfold Base64.encode. generalize (Z.to_nat v). intros n.
  do 64 (destruct n as [|n]; [vm_compute; reflexivity|]).
  destruct n; vm_compute; reflexivity.
Qed.

Lemma Encode_ascii bs : Forall (fun b => u8 b < 128) (Base64.Encode bs).
Proof.
  induction bs as [|b0|b0 b1|b0 b1 b2 bs IH] using list_ind3;
    cbn [Base64.Encode]; repeat constructor;
    try apply encode_ascii; try (vm_compute; reflexivity); exact IH.
Qed.

Lemma NewAdapterResponse_Ok (r : Http.Response.t) resp :
  AdapterResponse.NewAdapterResponse r = Ok resp →
  Http.failure (Http.Response.Body r) = None.
Proof.
  destruct (Http.failure (Http.Response.Body r)) as [err|] eqn:Hf;
    [|reflexivity].
  rewrite (NewAdapterResponse_failure _ _ Hf). discriminate.
Qed.

(** X5. The body of a response that [NewAdapterResponse] builds is always
    valid UTF-8 text, whatever bytes the handler wrote: either the bytes
    themselves, which are valid, or their base64 encoding, which is made
    of ASCII characters. *)
Theorem response_body_is_text (r : Http.Response.t) resp :
  AdapterResponse.NewAdapterResponse r = Ok resp →
  Utf8.Valid (String.list_byte_of_string (AdapterResponse.Body resp)) = true.
Proof.
  intros Hr. pose proof (NewAdapterResponse_Ok _ _ Hr) as Hf.
  rewrite NewAdapterResponse_eq in Hr by assumption. injection Hr as <-.
  cbn [AdapterResponse.Body].
  destruct (Utf8.Valid (Http.data (Http.Response.Body r))) eqn:Hv.
  - rewrite String.list_byte_of_string_of_list_byte. exact Hv.
  - unfold Base64.EncodeToString.
    rewrite String.list_byte_of_string_of_list_byte.
    apply Valid_ascii, Encode_ascii.
Qed.

(** X6. A response body made of ASCII bytes only, the empty body
    included, is passed on as text and never base64-encoded. *)
Theorem ascii_body_stays_text (r : Http.Response.t) :
  Http.failure (Http.Response.Body r) = None →
  Forall (fun b => u8 b < 128) (Http.data (Http.Response.Body r)) →
  ∃ resp,
    AdapterResponse.NewAdapterResponse r = Ok resp
    ∧ AdapterResponse.IsBase64Encoded resp = false
    ∧ AdapterResponse.Body resp
      = String.string_of_list_byte (Http.data (Http.Response.Body r)).
Proof.
  intros Hf Hascii. rewrite NewAdapterResponse_eq by assumption.
  eexists. split; [reflexivity|].
  cbn [AdapterResponse.Body AdapterResponse.IsBase64Encoded].
  rewrite (Valid_ascii _ Hascii). split; reflexivity.
Qed.

(** X7. The two translators agree on the encoding of a body: an event
    that carries the body and the base64 flag of a response built by
    [NewAdapterResponse] is turned by [ToRequest] into a request whose
    body is the bytes that the response was built from. *)
Theorem response_body_round_trip sched env (r : Http.Response.t) resp
    (ar ar' : AdapterRequest.t) (req : Http.Request.t) :
  AdapterResponse.NewAdapterResponse r = Ok resp →
  ToRequest sched env
    (setBody ar (AdapterResponse.Body resp)
       (AdapterResponse.IsBase64Encoded resp)) = (ar', Ok req) →
  Http.Request.Body req = Http.data (Http.Response.Body r).
Proof.
  intros Hr Hok. pose proof (NewAdapterResponse_Ok _ _ Hr) as Hf.
  rewrite NewAdapterResponse_eq in Hr by assumption. injection Hr as <-.
  apply ToRequest_Ok in Hok as (body & Hd & _ & _ & Hbody & _).
  rewrite Hbody. unfold decodedBody in Hd.
  cbn [IsBase64Encoded Body setBody AdapterResponse.Body
       AdapterResponse.IsBase64Encoded] in Hd.
  destruct (Utf8.Valid (Http.data (Http.Response.Body r))); cbn [negb] in Hd.
  - rewrite String.list_byte_of_string_of_list_byte in Hd. congruence.
  - rewrite DecodeString_EncodeToString in Hd. congruence.
Qed.

End response_more.

Section proxy_more.
Context `{Platform}.

(** [Proxy] case by case. *)
Lemma Proxy_eq sched env (ar : AdapterRequest.t) (c : Ctx) (handler : Handler) :
  Proxy sched env ar c handler =
    match (ToRequest sched env ar).2 with
    | (_, Some e) =>
        returns ((ToRequest sched env ar).1,
                 Fail (Wrap e "Unable to convert AdapterRequest to http.Request"))
    | (None, None) => panics
    | (Some req, None) =>
        match handler (Http.WithContext req c) Httptest.NewRecorder with
        | returns w =>
            returns ((ToRequest sched env ar).1,
                     AdapterResponse.NewAdapterResponse
                       (Httptest.Result (Httptest.Flush w)))
        | blocks => blocks
        | panics => panics
        end
    end.
Proof.
  unfold Proxy. destruct (ToRequest sched env ar) as [ar1 [[req|] [e|]]];
    cbn [fst snd]; try reflexivity.
  unfold requestDoneHandler.
  destruct (handler _ _) as [w| |]; try reflexivity.
  cbn [recv]. destruct (recorded_response_translates w) as [resp Hresp].
  rewrite Hresp. reflexivity.
Qed.

Lemma Proxy_returns_response sched env (ar ar' : AdapterRequest.t) (c : Ctx)
    (handler : Handler) resp err :
  Proxy sched env ar c handler = returns (ar', (Some resp, err)) →
  err = None
  ∧ ∃ req w,
      (ToRequest sched env ar).2 = Ok req
      ∧ handler (Http.WithContext req c) Httptest.NewRecorder = returns w
      ∧ AdapterResponse.NewAdapterResponse (Httptest.Result (Httptest.Flush w))
        = Ok resp.
Proof.
  rewrite Proxy_eq.
  destruct (ToRequest_result sched env ar) as [[req Hreq]|[e He]].
  - rewrite Hreq. unfold Ok.
    destruct (handler _ _) as [w| |] eqn:Hh; try discriminate.
    destruct (recorded_response_translates w) as [resp' Hresp].
    rewrite Hresp. intros [= _ <- <-]. split; [reflexivity|].
    exists req, w. auto.
  - rewrite He. discriminate.
Qed.

Lemma recorded_response_fields (w : Httptest.ResponseRecorder) resp :
  AdapterResponse.NewAdapterResponse (Httptest.Result (Httptest.Flush w))
    = Ok resp →
  AdapterResponse.StatusCode resp ≠ 0
  ∧ AdapterResponse.StatusCode resp
    = (if Httptest.wroteHeader w
       then if Httptest.Code w =? 0 then 200 else Httptest.Code w
       else 200)
  ∧ AdapterResponse.MultiValueHeaders resp
    = (if Httptest.wroteHeader w
       then default (Httptest.HeaderMap w) (Httptest.snapHeader w)
       else Httptest.HeaderMap w)
  ∧ AdapterResponse.Headers resp = ∅
  ∧ AdapterResponse.StatusDescription resp = "".
Proof.
  intros Hr.
  rewrite NewAdapterResponse_eq in Hr by reflexivity. injection Hr as <-.
  cbn [AdapterResponse.StatusCode AdapterResponse.MultiValueHeaders
       AdapterResponse.Headers AdapterResponse.StatusDescription].
  unfold Httptest.Result, Httptest.Flush, Httptest.WriteHeader.
  destruct (Httptest.wroteHeader w);
    cbn [Http.Response.StatusCode Http.Response.Header Httptest.Code
         Httptest.HeaderMap Httptest.snapHeader].
  - repeat split. destruct (Z.eqb_spec (Httptest.Code w) 0); lia.
  - repeat split. discriminate.
Qed.

(** X8. What [Proxy] reports of the recorder [w] that the handler leaves.
    The status code is never 0: it is 200 when the handler wrote no header,
    whatever the recorder's code field holds, and otherwise the recorded
    code, 200 standing in for 0. The multi-value headers are the snapshot
    taken when the header was written, so headers set later are not
    reported; without a written header they are the recorder's header map.
    The single-value headers and the status description are empty. *)
Theorem Proxy_reports_recorder sched env (ar ar' : AdapterRequest.t) (c : Ctx)
    (handler : Handler) resp :
  Proxy sched env ar c handler = returns (ar', (Some resp, None)) →
  ∃ req w,
    (ToRequest sched env ar).2 = Ok req
    ∧ handler (Http.WithContext req c) Httptest.NewRecorder = returns w
    ∧ AdapterResponse.StatusCode resp ≠ 0
    ∧ AdapterResponse.StatusCode resp
      = (if Httptest.wroteHeader w
         then if Httptest.Code w =? 0 then 200 else Httptest.Code w
         else 200)
    ∧ AdapterResponse.MultiValueHeaders resp
      = (if Httptest.wroteHeader w
         then default (Httptest.HeaderMap w) (Httptest.snapHeader w)
         else Httptest.HeaderMap w)
    ∧ AdapterResponse.Headers resp = ∅
    ∧ AdapterResponse.StatusDescription resp = "".
Proof.
  intros Hp. apply Proxy_returns_response in Hp as (_ & req & w & Hreq & Hh & Hr).
  exists req, w. split; [exact Hreq|]. split; [exact Hh|].
  apply recorded_response_fields, Hr.
Qed.

(** X9. A handler that returns without touching the recorder gets the
    response [200] with an empty text body and no headers. *)
Theorem Proxy_silent_handler sched env (ar : AdapterRequest.t) (c : Ctx)
    (handler : Handler) req :
  (ToRequest sched env ar).2 = Ok req →
  handler (Http.WithContext req c) Httptest.NewRecorder
    = returns Httptest.NewRecorder →
  Proxy sched env ar c handler
  = returns ((ToRequest sched env ar).1,
             Ok {| AdapterResponse.StatusCode := 200;
                   AdapterResponse.StatusDescription := "";
                   AdapterResponse.Headers := ∅;
                   AdapterResponse.MultiValueHeaders := ∅;
                   AdapterResponse.Body := "";
                   AdapterResponse.IsBase64Encoded := false |}).
Proof.
  intros Hreq Hh. rewrite Proxy_eq, Hreq. unfold Ok at 1. rewrite Hh.
  reflexivity.
Qed.

(** X10. The handler of the API Gateway example. What it returns is either
    an error and the zero response, the error being that of [ToRequest]
    wrapped by [Proxy] and wrapped again; or no error and the API Gateway
    shape of the response that [Proxy] returned, with a status code that is
    not 0 and empty single-value headers. It returns whenever the router
    returns. *)
Theorem GorillaMux_handler_result sched env (r : Handler) (c : Ctx)
    (adapterRequest : AdapterRequest.t) :
  (∀ resp err,
     GorillaMux.handler sched env r c adapterRequest = returns (resp, err) →
     (∃ e, (ToRequest sched env adapterRequest).2 = Fail e
           ∧ resp = zeroAPIGatewayProxyResponse
           ∧ err = Some (Wrap
                (Wrap e "Unable to convert AdapterRequest to http.Request")
                "Unable to get adapter response"))
     ∨ (∃ ar' aresp,
          Proxy sched env adapterRequest c r = returns (ar', Ok aresp)
          ∧ err = None
          ∧ resp = (AdapterResponse.APIGatewayProxyResponse aresp).1
          ∧ Events.APIGatewayProxyResponse.StatusCode resp ≠ 0
          ∧ Events.APIGatewayProxyResponse.Headers resp = ∅))
  ∧ ((∀ req w, ∃ w', r req w = returns w') →
     ∃ resp err,
       GorillaMux.handler sched env r c adapterRequest = returns (resp, err)).
Proof.
  unfold GorillaMux.handler. split.
  - intros resp err.
    destruct (Proxy sched env adapterRequest c r) as [[ar' [[aresp|] [e|]]]| |]
      eqn:Hp; try discriminate.
    + apply Proxy_returns_response in Hp as (? & _). discriminate.
    + intros [= <- <-]. right. exists ar', aresp.
      split; [reflexivity|]. split; [reflexivity|]. split; [reflexivity|].
      apply Proxy_returns_response in Hp as (_ & req & w & _ & _ & Hr).
      apply recorded_response_fields in Hr as (Hcode & _ & _ & _ & _).
      split; [exact Hcode|reflexivity].
    + intros [= <- <-]. left.
      rewrite Proxy_eq in Hp.
      destruct (ToRequest_result sched env adapterRequest) as [[req Hreq]|[e' He]].
      * rewrite Hreq in Hp. unfold Ok in Hp.
        destruct (r _ _) as [w| |]; try discriminate.
        destruct (recorded_response_translates w) as [resp' Hresp].
        rewrite Hresp in Hp. discriminate.
      * rewrite He in Hp. injection Hp as _ <-. exists e'. auto.
  - intros Hall. rewrite Proxy_eq.
    destruct (ToRequest_result sched env adapterRequest) as [[req Hreq]|[e' He]].
    + rewrite Hreq. unfold Ok.
      destruct (Hall (Http.WithContext req c) Httptest.NewRecorder) as [w Hw].
      rewrite Hw.
      destruct (recorded_response_translates w) as [resp' Hresp].
      rewrite Hresp. unfold Ok. eauto.
    + rewrite He. unfold Fail. eauto.
Qed.

End proxy_more.

Section newlines.
Context `{Platform}.

Lemma withoutNewlines_cons c src :
  withoutNewlines (c :: src) =
    if Base64.isNewline c then withoutNewlines src
    else c :: withoutNewlines src.
Proof.
  unfold withoutNewlines. rewrite filter_cons.
  destruct (Base64.isNewline c); reflexivity.
Qed.

Lemma newline_not_in_alphabet c :
  Base64.isNewline c = true →
  Base64.decodeMap c = 255 ∧ Byte.eqb c Base64.padChar = false.
Proof. destruct c; try discriminate; intros _; split; reflexivity. Qed.

Lemma skipNewlines_spec src : ∀ si r s,
  Base64.skipNewlines src si = (r, s) →
  withoutNewlines src = withoutNewlines r
  ∧ match r with
    | [] => True
    | c :: _ => Base64.isNewline c = false
    end.
Proof.
  induction src as [|c src IH]; intros si r s.
  - intros [= <- <-]. split; constructor.
  - cbn [Base64.skipNewlines]. destruct (Base64.isNewline c) eqn:Hc.
    + intros Hs. apply IH in Hs as [Hw Hr]. split; [|exact Hr].
      rewrite withoutNewlines_cons, Hc. exact Hw.
    + intros [= <- <-]. split; [reflexivity|exact Hc].
Qed.

Lemma endOfInput_ok src si out bs :
  Base64.endOfInput src si out = inl bs ↔ withoutNewlines src = [] ∧ bs = out.
Proof.
  unfold Base64.endOfInput.
  destruct (Base64.skipNewlines src si) as [r s] eqn:Hs.
  apply skipNewlines_spec in Hs as [Hw Hr]. rewrite Hw.
  destruct r as [|c r].
  - split; [intros [= <-]; auto|intros [_ ->]; reflexivity].
  - rewrite withoutNewlines_cons, Hr. split; [discriminate|].
    intros [? _]. discriminate.
Qed.

Lemma second_pad_ok src si out bs :
  match Base64.skipNewlines src si with
  | ([], si1) => inr (CorruptInputError si1)
  | (c2 :: rest2, si1) =>
      if negb (Byte.eqb c2 Base64.padChar)
      then inr (CorruptInputError (si1 - 1))
      else Base64.endOfInput rest2 (si1 + 1) out
  end = inl bs
  ↔ withoutNewlines src = [Base64.padChar] ∧ bs = out.
Proof.
  destruct (Base64.skipNewlines src si) as [r s] eqn:Hs.
  apply skipNewlines_spec in Hs as [Hw Hr]. rewrite Hw.
  destruct r as [|c2 rest2].
  - split; [discriminate|]. intros [? _]. discriminate.
  - rewrite withoutNewlines_cons, Hr.
    destruct (Byte.eqb c2 Base64.padChar) eqn:Hc2; cbn [negb].
    + apply Byte.byte_dec_bl in Hc2 as ->. rewrite endOfInput_ok.
      split.
      * intros [-> ->]. auto.
      * intros [[= ->] ->]. auto.
    + split; [discriminate|]. intros [[= -> _] _].
      discriminate Hc2.
Qed.

Lemma withoutNewlines_idem src :
  withoutNewlines (withoutNewlines src) = withoutNewlines src.
Proof.
  induction src as [|c src IH]; [reflexivity|].
  rewrite withoutNewlines_cons. destruct (Base64.isNewline c) eqn:Hc;
    [exact IH|]. rewrite withoutNewlines_cons, Hc, IH. reflexivity.
Qed.

Lemma prepend_ok (q bs : list byte) (x y : list byte + error) :
  (∀ b, x = inl b ↔ y = inl b) →
  match x with inl b => inl (q ++ b) | inr e => inr e end = inl bs
  ↔ match y with inl b => inl (q ++ b) | inr e => @inr (list byte) error e end
    = inl bs.
Proof.
  intros Hxy. destruct x as [b|e], y as [b'|e'].
  - assert (b = b') as -> by (specialize (Hxy b); destruct Hxy as [Hx _];
      specialize (Hx eq_refl); congruence). reflexivity.
  - specialize (Hxy b). destruct Hxy as [Hx _]. specialize (Hx eq_refl).
    discriminate.
  - specialize (Hxy b'). destruct Hxy as [_ Hy]. specialize (Hy eq_refl).
    discriminate.
  - split; discriminate.
Qed.

(** The decoder succeeds on an input exactly when it succeeds on the
    input without its line breaks, and with the same bytes. *)
Lemma decode_ignores_newlines src : ∀ si si' dbuf bs,
  Base64.decode src si dbuf = inl bs
  ↔ Base64.decode (withoutNewlines src) si' dbuf = inl bs.
Proof.
  induction src as [|c src IH]; intros si si' dbuf bs.
  - cbn. destruct dbuf; [reflexivity|]. split; discriminate.
  - rewrite withoutNewlines_cons.
    destruct (Base64.isNewline c) eqn:Hc.
    + cbn [Base64.decode]. cbv zeta.
      destruct (newline_not_in_alphabet c Hc) as [-> _]. cbn [Z.eqb negb].
      rewrite Hc. apply IH.
    + cbn [Base64.decode]. cbv zeta. rewrite Hc.
      destruct (negb (Base64.decodeMap c =? 255)).
      { destruct dbuf as [|d0 [|d1 [|d2 [|d3 dbuf]]]]; try apply IH.
        apply prepend_ok. intros b. apply IH. }
      destruct (negb (Byte.eqb c Base64.padChar)); [split; discriminate|].
      destruct dbuf as [|d0 [|d1 [|d2 [|d3 dbuf]]]]; try (split; discriminate).
      * rewrite !second_pad_ok, withoutNewlines_idem. reflexivity.
      * rewrite !endOfInput_ok, withoutNewlines_idem. reflexivity.
Qed.

(** X11. Carriage returns and line feeds in a base64 body are ignored: an
    event flagged as base64 gives the same request as the event whose body
    is the same text without its line breaks. *)
Theorem base64_body_ignores_line_breaks sched env (ar : AdapterRequest.t)
    (body' : string) :
  IsBase64Encoded ar = true →
  String.list_byte_of_string body'
    = withoutNewlines (String.list_byte_of_string (Body ar)) →
  ∀ req, (ToRequest sched env ar).2 = Ok req
         ↔ (ToRequest sched env (setBody ar body' true)).2 = Ok req.
Proof.
  intros Hflag Hbody req. rewrite !ToRequest_eq. unfold decodedBody.
  cbn [IsBase64Encoded Body setBody]. rewrite Hflag.
  unfold Base64.DecodeString. rewrite Hbody.
  pose proof (decode_ignores_newlines
                (String.list_byte_of_string (Body ar)) 0 0 []) as Hd.
  destruct (Base64.decode (String.list_byte_of_string (Body ar)) 0 [])
    as [bs|e].
  - rewrite (proj1 (Hd bs) eq_refl). reflexivity.
  - destruct (Base64.decode (withoutNewlines _) 0 []) as [bs'|e'].
    + specialize (Hd bs'). destruct Hd as [_ Hd]. specialize (Hd eq_refl).
      discriminate.
    + split; discriminate.
Qed.

End newlines.

Section canonical.

Lemma upperByte_idem c : Strings.upperByte (Strings.upperByte c) = Strings.upperByte c.
Proof. destruct c as [[] [] [] [] [] [] [] []]; reflexivity. Qed.

Lemma lowerByte_idem c : Strings.lowerByte (Strings.lowerByte c) = Strings.lowerByte c.
Proof. destruct c as [[] [] [] [] [] [] [] []]; reflexivity. Qed.

Lemma valid_upperByte c :
  Textproto.validHeaderFieldByte (Strings.upperByte c)
  = Textproto.validHeaderFieldByte c.
Proof. destruct c as [[] [] [] [] [] [] [] []]; reflexivity. Qed.

Lemma valid_lowerByte c :
  Textproto.validHeaderFieldByte (Strings.lowerByte c)
  = Textproto.validHeaderFieldByte c.
Proof. destruct c as [[] [] [] [] [] [] [] []]; reflexivity. Qed.

Lemma canonical_idem s : ∀ upper,
  Textproto.canonical upper (Textproto.canonical upper s)
  = Textproto.canonical upper s.
Proof.
  induction s as [|c s IH]; intros upper; [reflexivity|].
  cbn [Textproto.canonical]. cbv zeta.
  destruct upper; rewrite ?upperByte_idem, ?lowerByte_idem, IH; reflexivity.
Qed.

Lemma canonical_valid s : ∀ upper,
  Strings.forallb Textproto.validHeaderFieldByte (Textproto.canonical upper s)
  = Strings.forallb Textproto.validHeaderFieldByte s.
Proof.
  induction s as [|c s IH]; intros upper; [reflexivity|].
  cbn [Textproto.canonical Strings.forallb]. cbv zeta.
  destruct upper; rewrite ?valid_upperByte, ?valid_lowerByte, IH; reflexivity.
Qed.

(** Canonicalising a key twice is canonicalising it once. *)
Lemma CanonicalMIMEHeaderKey_idem s :
  Textproto.CanonicalMIMEHeaderKey (Textproto.CanonicalMIMEHeaderKey s)
  = Textproto.CanonicalMIMEHeaderKey s.
Proof.
  unfold Textproto.CanonicalMIMEHeaderKey.
  destruct (Strings.forallb Textproto.validHeaderFieldByte s) eqn:Hv.
  - rewrite canonical_valid, Hv. apply canonical_idem.
  - rewrite Hv. reflexivity.
Qed.

End canonical.

Section headers_more.
Context `{Platform}.

Lemma requestHeader_values (ar : AdapterRequest.t) keys : ∀ h c,
  Http.values (requestHeader ar keys h) c
  = Http.values h c
    ++ ((fun k => default "" (Headers ar !! k))
          <$> filter (fun k => Textproto.CanonicalMIMEHeaderKey k = c) keys).
Proof.
  induction keys as [|k keys IH]; intros h c.
  - cbn. rewrite app_nil_r. reflexivity.
  - change (requestHeader ar (k :: keys) h)
      with (requestHeader ar keys
              (Http.Add h k (default "" (Headers ar !! k)))).
    rewrite IH, Add_values, filter_cons.
    destruct (decide (Textproto.CanonicalMIMEHeaderKey k = c)).
    + rewrite fmap_cons, <- app_assoc. reflexivity.
    + reflexivity.
Qed.

(** X12. The values that the request holds under a key are the values of
    the event headers whose key has that canonical form, one for each such
    header, in the order in which the headers are visited; under a key
    that is the canonical form of no event header the request holds
    nothing. *)
Theorem ToRequest_header_values sched env (ar ar' : AdapterRequest.t)
    (req : Http.Request.t) :
  ToRequest sched env ar = (ar', Ok req) →
  ∀ c,
    Http.values (Http.Request.Header req) c
    = (fun k => default "" (Headers ar !! k))
        <$> filter (fun k => Textproto.CanonicalMIMEHeaderKey k = c)
              (headerKeys sched).
Proof.
  intros Hok c. apply ToRequest_Ok in Hok as (_ & _ & _ & _ & _ & ->).
  rewrite requestHeader_values. unfold Http.values at 1.
  rewrite lookup_empty. reflexivity.
Qed.

Lemma requestHeader_keys (ar : AdapterRequest.t) keys : ∀ h,
  (∀ c vs, h !! c = Some vs →
     vs ≠ [] ∧ Textproto.CanonicalMIMEHeaderKey c = c) →
  ∀ c vs, requestHeader ar keys h !! c = Some vs →
    vs ≠ [] ∧ Textproto.CanonicalMIMEHeaderKey c = c.
Proof.
  induction keys as [|k keys IH]; intros h Hh; [exact Hh|].
  change (requestHeader ar (k :: keys) h)
    with (requestHeader ar keys
            (Http.Add h k (default "" (Headers ar !! k)))).
  apply IH. intros c vs. unfold Http.Add. rewrite lookup_insert.
  destruct (decide _) as [<-|].
  - intros [= <-]. split; [|apply CanonicalMIMEHeaderKey_idem].
    intros E. apply app_eq_nil in E as [_ E]. discriminate.
  - apply Hh.
Qed.

(** X13. Every key of the header set of a request that [ToRequest]
    produces is in canonical form, and holds at least one value. *)
Theorem ToRequest_header_keys_canonical sched env (ar ar' : AdapterRequest.t)
    (req : Http.Request.t) :
  ToRequest sched env ar = (ar', Ok req) →
  ∀ c vs, Http.Request.Header req !! c = Some vs →
    Textproto.CanonicalMIMEHeaderKey c = c ∧ vs ≠ [].
Proof.
  intros Hok c vs Hc. apply ToRequest_Ok in Hok as (_ & _ & _ & _ & _ & Hh).
  rewrite Hh in Hc. apply requestHeader_keys in Hc as [? ?]; [auto|].
  intros c' vs'. rewrite lookup_empty. discriminate.
Qed.

End headers_more.

Section escape_facts.

(** The first character of an escaped component is decoded back, whatever
    follows the component. *)
Lemma unescapeHead_escape c s t :
  unescapeHead (Url.escape (String c s) +:+ t) = Some (c, Url.escape s +:+ t).
Proof.
  destruct c as [[] [] [] [] [] [] [] []];
    cbn [Url.escape Ascii.eqb Bool.eqb Url.shouldEscape];
    rewrite ?str_append_cons; reflexivity.
Qed.

Lemma escape_head_escaped c s t :
  ∃ h r, Url.escape (String c s) +:+ t = String h r ∧ escapedChar h = true.
Proof.
  destruct c as [[] [] [] [] [] [] [] []];
    cbn [Url.escape Ascii.eqb Bool.eqb Url.shouldEscape];
    rewrite ?str_append_cons; eexists _, _; (split; [reflexivity|reflexivity]).
Qed.

Lemma escape_app_inj s : ∀ s' t t',
  separated t → separated t' →
  Url.escape s +:+ t = Url.escape s' +:+ t' → s = s' ∧ t = t'.
Proof.
  induction s as [|c s IH]; intros [|c' s'] t t' Ht Ht' E.
  - cbn in E. rewrite !str_append_nil in E. auto.
  - exfalso. change (Url.escape "") with "" in E. rewrite str_append_nil in E.
    destruct (escape_head_escaped c' s' t') as (h & r & Hr & Hh).
    rewrite Hr in E. subst t. cbn in Ht. congruence.
  - exfalso. change (Url.escape "") with "" in E. rewrite str_append_nil in E.
    destruct (escape_head_escaped c s t) as (h & r & Hr & Hh).
    rewrite Hr in E. subst t'. cbn in Ht'. congruence.
  - apply (f_equal unescapeHead) in E. rewrite !unescapeHead_escape in E.
    injection E as -> E. apply IH in E as [-> ->]; auto.
Qed.


Lemma queryTail_separated l : separated (queryTail l).
Proof. destruct l; reflexivity. Qed.

Lemma query_cons kv l :
  String.concat "&" (queryEntry <$> kv :: l)
  = Url.escape kv.1 +:+ "=" +:+ Url.escape kv.2 +:+ queryTail l.
Proof.
  destruct l as [|kv' l].
  - cbn. unfold queryEntry, Url.QueryEscape.
    rewrite ?str_append_assoc, ?str_append_nil_r. reflexivity.
  - change (String.concat "&" (queryEntry <$> kv :: kv' :: l))
      with (queryEntry kv +:+ "&"
            +:+ String.concat "&" (queryEntry <$> kv' :: l)).
    unfold queryEntry at 1, Url.QueryEscape, queryTail.
    rewrite ?str_append_assoc. reflexivity.
Qed.

(** Two lists of pairs with the same query string are the same list. *)
Lemma query_inj l : ∀ l',
  String.concat "&" (queryEntry <$> l) = String.concat "&" (queryEntry <$> l') →
  l = l'.
Proof.
  induction l as [|[k v] l IH]; intros [|[k' v'] l'] E.
  - reflexivity.
  - exfalso. rewrite query_cons in E. cbn [fmap list_fmap String.concat] in E.
    destruct (Url.escape (k', v').1) eqn:Hk; cbn in E; discriminate.
  - exfalso. rewrite query_cons in E. cbn [fmap list_fmap String.concat] in E.
    destruct (Url.escape (k, v).1) eqn:Hk; cbn in E; discriminate.
  - rewrite !query_cons in E. cbn [fst snd] in E.
    apply escape_app_inj in E as [-> E]; [|reflexivity..].
    injection E as E.
    apply escape_app_inj in E as [-> E]; [|apply queryTail_separated..].
    f_equal. destruct l as [|kv l], l' as [|kv' l']; try discriminate.
    + reflexivity.
    + injection E as E. apply IH, E.
Qed.

End escape_facts.

Section query_more.
Context `{Platform}.

(** X14. The query string determines the parameters: two calls that
    reconstruct the same query string from the multi-value maps visited the
    same key/value pairs in the same order, and likewise for the
    single-value maps. Escaping never lets a key, a value or a pair run
    into the next. *)
Theorem query_string_determines_pairs (ar1 ar2 : AdapterRequest.t)
    (keys1 keys2 : list string) :
  (multiValueQueryString ar1 keys1 = multiValueQueryString ar2 keys2 →
     flatten ((fun k => (k, default []
                 (MultiValueQueryStringParameters ar1 !! k))) <$> keys1)
     = flatten ((fun k => (k, default []
                   (MultiValueQueryStringParameters ar2 !! k))) <$> keys2))
  ∧ (singleValueQueryString ar1 keys1 = singleValueQueryString ar2 keys2 →
     (fun k => (k, default "" (QueryStringParameters ar1 !! k))) <$> keys1
     = (fun k => (k, default "" (QueryStringParameters ar2 !! k))) <$> keys2).
Proof.
  unfold multiValueQueryString, singleValueQueryString. split.
  - rewrite !multi_loop_flatten, !addPair_loop. apply query_inj.
  - rewrite !single_loop_entries, !addPair_loop. apply query_inj.
Qed.

Lemma multi_loop_empty (m : gmap string (list string)) keys : ∀ acc,
  (∀ k vs, m !! k = Some vs → vs = []) →
  fold_left
    (fun queryString q =>
       fold_left (fun queryString v => addPair queryString q v)
         (default [] (m !! q)) queryString)
    keys acc = acc.
Proof.
  induction keys as [|k keys IH]; intros acc Hm; [reflexivity|].
  cbn [fold_left]. rewrite IH by assumption.
  destruct (m !! k) as [vs|] eqn:Hk; [|reflexivity].
  rewrite (Hm _ _ Hk). reflexivity.
Qed.

(** X15. A multi-value query map that is not empty but holds no value at
    all, every key having an empty list, still takes precedence: the URL of
    the request is the event path followed by a bare ["?"], and the
    single-value parameters are not used. *)
Theorem empty_value_lists_give_bare_question_mark sched env
    (ar ar' : AdapterRequest.t) (req : Http.Request.t) :
  (0 < size (MultiValueQueryStringParameters ar))%nat →
  (∀ k vs, MultiValueQueryStringParameters ar !! k = Some vs → vs = []) →
  ToRequest sched env ar = (ar', Ok req) →
  Http.Request.RawURL req = Path ar +:+ "?"
  ∧ Path ar' = Path ar +:+ "?".
Proof.
  intros Hpos Hempty Hok.
  apply ToRequest_Ok in Hok as (_ & _ & -> & -> & _).
  cbn [Path setPath]. unfold querySuffix, queryString.
  rewrite (ltb_size_pos _ Hpos). cbn [orb].
  unfold multiValueQueryString. rewrite multi_loop_empty by assumption.
  rewrite str_append_nil_r. auto.
Qed.

End query_more.

Section strip_more.
Context `{Platform}.

Lemma StripBasePath_eq (ar : AdapterRequest.t) basePath :
  StripBasePath ar basePath =
    let n :=
      if allSpaces basePath then ""
      else if Strings.HasSuffix (withSlash basePath) "/"
      then Strings.take (String.length (withSlash basePath) - 1)
             (withSlash basePath)
      else withSlash basePath in
    (setStripBasePath ar n, n).
Proof.
  unfold StripBasePath. rewrite Trim_allSpaces, withSlash_eq.
  destruct (allSpaces basePath); [reflexivity|].
  destruct (Strings.HasSuffix _ _); reflexivity.
Qed.

Lemma withSlash_cons p : ∃ t, withSlash p = String "/" t.
Proof.
  unfold withSlash. destruct (Strings.HasPrefix p "/") eqn:Hp.
  - unfold Strings.HasPrefix in Hp. apply String.prefix_correct in Hp.
    destruct p as [|c p]; [discriminate Hp|].
    cbn [String.length String.substring] in Hp. injection Hp as -> _. eauto.
  - eexists. reflexivity.
Qed.

Lemma HasPrefix_slash_cons x : Strings.HasPrefix (String "/" x) "/" = true.
Proof. exact (str_prefix_app "/" x). Qed.

Lemma withSlash_single p :
  allSpaces p = false → withSlash p = "/" → p = "/".
Proof.
  unfold withSlash. destruct (Strings.HasPrefix p "/"); [auto|].
  intros Hs E. rewrite str_append_cons, str_append_nil in E.
  injection E as ->. discriminate.
Qed.

(** X16. What [StripBasePath] stores. The value stored is the value
    returned, and no other field of the receiver changes. It is empty or
    starts with a slash, and it is empty exactly for an argument made of
    spaces (the empty string included) and for the argument ["/"]. *)
Theorem StripBasePath_stored (ar : AdapterRequest.t) (basePath : string) :
  (StripBasePath ar basePath).1
    = setStripBasePath ar (StripBasePath ar basePath).2
  ∧ stripBasePath (StripBasePath ar basePath).1 = (StripBasePath ar basePath).2
  ∧ ((StripBasePath ar basePath).2 = ""
     ∨ Strings.HasPrefix (StripBasePath ar basePath).2 "/" = true)
  ∧ ((StripBasePath ar basePath).2 = ""
     ↔ allSpaces basePath = true ∨ basePath = "/").
Proof.
  rewrite StripBasePath_eq. cbv zeta. cbn [fst snd stripBasePath setStripBasePath].
  split; [reflexivity|]. split; [reflexivity|].
  destruct (allSpaces basePath) eqn:Hs.
  { split; [left; reflexivity|]. split; auto. }
  destruct (withSlash_cons basePath) as [t Ht].
  destruct (Strings.HasSuffix (withSlash basePath) "/") eqn:Hsuf.
  - rewrite Ht.
    destruct t as [|c t]; cbn [String.length Nat.sub Strings.take].
    + split; [left; reflexivity|]. split; [|reflexivity].
      intros _. right. apply withSlash_single; assumption.
    + split; [right; apply HasPrefix_slash_cons|]. split; [discriminate|].
      intros [?| ->]; [discriminate|]. unfold withSlash in Ht.
      rewrite HasPrefix_slash_cons in Ht. discriminate.
  - rewrite Ht. split; [right; apply HasPrefix_slash_cons|].
    split; [discriminate|].
    intros [?| ->]; [discriminate|]. discriminate.
Qed.

Lemma allSpaces_app_slash s : allSpaces (s +:+ "/") = false.
Proof.
  induction s as [|c s IH]; [reflexivity|].
  rewrite str_append_cons. unfold allSpaces in *. cbn [Strings.forallb].
  rewrite IH. apply andb_false_r.
Qed.

Lemma HasSuffix_cons c s :
  s ≠ "" → Strings.HasSuffix (String c s) "/" = Strings.HasSuffix s "/".
Proof.
  intros Hs. destruct s as [|d s]; [congruence|].
  unfold Strings.HasSuffix. cbn [String.length Nat.leb Nat.sub andb].
  rewrite !Nat.sub_0_r. reflexivity.
Qed.

Lemma not_allSpaces_nonempty s : allSpaces s = false → s ≠ "".
Proof. intros Hs ->. discriminate. Qed.

Lemma HasPrefix_app_slash s :
  s ≠ "" → Strings.HasPrefix (s +:+ "/") "/" = Strings.HasPrefix s "/".
Proof.
  intros Hs. destruct s as [|c s]; [congruence|]. rewrite str_append_cons.
  unfold Strings.HasPrefix.
  change (String.prefix "/" (String c (s +:+ "/")))
    with (if ascii_dec "/" c then String.prefix "" (s +:+ "/") else false).
  change (String.prefix "/" (String c s))
    with (if ascii_dec "/" c then String.prefix "" s else false).
  destruct (ascii_dec "/" c); [|reflexivity].
  generalize (s +:+ "/"). intros t. destruct s, t; reflexivity.
Qed.

Lemma StripBasePath_plain (ar : AdapterRequest.t) s :
  allSpaces s = false →
  Strings.HasPrefix s "/" = false → Strings.HasSuffix s "/" = false →
  StripBasePath ar s = (setStripBasePath ar ("/" +:+ s), "/" +:+ s).
Proof.
  intros Hs Hp Hsuf. rewrite StripBasePath_eq. cbv zeta. rewrite Hs.
  unfold withSlash. rewrite Hp.
  rewrite str_append_cons, str_append_nil, HasSuffix_cons, Hsuf
    by (apply not_allSpaces_nonempty, Hs).
  reflexivity.
Qed.

(** X17. The spellings of a base path. For a text [s] that is not made of
    spaces and neither starts nor ends with a slash, [StripBasePath]
    stores ["/" + s] for each of the arguments [s], ["/" + s], [s + "/"]
    and ["/" + s + "/"]; and for an event whose path is ["/" + s] followed
    by [rest], the path that [ToRequest] then resolves is [rest], with a
    slash in front when it has none. *)
Theorem base_path_spellings (ar : AdapterRequest.t) (s : string) :
  allSpaces s = false →
  Strings.HasPrefix s "/" = false →
  Strings.HasSuffix s "/" = false →
  StripBasePath ar s = (setStripBasePath ar ("/" +:+ s), "/" +:+ s)
  ∧ StripBasePath ar ("/" +:+ s) = StripBasePath ar s
  ∧ StripBasePath ar (s +:+ "/") = StripBasePath ar s
  ∧ StripBasePath ar ("/" +:+ s +:+ "/") = StripBasePath ar s
  ∧ (∀ rest, Path ar = "/" +:+ s +:+ rest →
       resolvedPath (StripBasePath ar s).1 = withSlash rest).
Proof.
  intros Hs Hp Hsuf. pose proof (not_allSpaces_nonempty _ Hs) as Hne.
  rewrite (StripBasePath_plain ar s) by assumption.
  split; [reflexivity|]. split; [|split; [|split]].
  - rewrite StripBasePath_eq. cbv zeta.
    rewrite str_append_cons, str_append_nil.
    change (allSpaces (String "/" s)) with false. cbv iota.
    unfold withSlash. rewrite HasPrefix_slash_cons.
    rewrite HasSuffix_cons, Hsuf by assumption. reflexivity.
  - rewrite StripBasePath_eq. cbv zeta. rewrite allSpaces_app_slash.
    unfold withSlash. rewrite HasPrefix_app_slash, Hp by assumption.
    rewrite <- str_append_assoc, HasSuffix_app, str_length_app.
    cbn [String.length].
    replace (String.length ("/" +:+ s) + 1 - 1)%nat
      with (String.length ("/" +:+ s)) by lia.
    rewrite str_take_app. reflexivity.
  - rewrite StripBasePath_eq. cbv zeta.
    rewrite (str_append_cons "/" "" (s +:+ "/")), str_append_nil.
    change (allSpaces (String "/" (s +:+ "/"))) with false. cbv iota.
    unfold withSlash. rewrite HasPrefix_slash_cons.
    rewrite <- str_append_cons.
    rewrite HasSuffix_app, str_length_app. cbn [String.length].
    replace (S (String.length s) + 1 - 1)%nat
      with (String.length (String "/" s)) by (cbn; lia).
    rewrite str_take_app. rewrite str_append_cons, str_append_nil.
    reflexivity.
  - intros rest Hpath. apply resolvedPath_stripped.
    + cbn [fst stripBasePath setStripBasePath].
      rewrite str_append_cons, str_append_nil. cbn [String.length].
      destruct s; [congruence|]. cbn. lia.
    + cbn [fst stripBasePath setStripBasePath Path]. rewrite Hpath.
      rewrite str_append_assoc. reflexivity.
Qed.

End strip_more.

Section examples_more.
Context `{Platform}.

(** X18. The handler of the load balancer example. What it returns is
    either an error and the zero response, the error being that of
    [ToRequest] wrapped by [Proxy] and wrapped again; or no error and the
    load balancer shape of the response that [Proxy] returned, with a
    status code that is not 0, an empty status description and empty
    single-value headers. It returns whenever the router returns. *)
Theorem Echo_handler_result sched env (e : Handler) (c : Ctx)
    (adapterRequest : AdapterRequest.t) :
  (∀ resp err,
     Echo.handler sched env e c adapterRequest = returns (resp, err) →
     (∃ e', (ToRequest sched env adapterRequest).2 = Fail e'
            ∧ resp = zeroALBTargetGroupResponse
            ∧ err = Some (Wrap
                 (Wrap e' "Unable to convert AdapterRequest to http.Request")
                 "Unable to proxy request"))
     ∨ (∃ ar' aresp,
          Proxy sched env adapterRequest c e = returns (ar', Ok aresp)
          ∧ err = None
          ∧ resp = (AdapterResponse.ALBTargetGroupResponse aresp).1
          ∧ Events.ALBTargetGroupResponse.StatusCode resp ≠ 0
          ∧ Events.ALBTargetGroupResponse.StatusDescription resp = ""
          ∧ Events.ALBTargetGroupResponse.Headers resp = ∅))
  ∧ ((∀ req w, ∃ w', e req w = returns w') →
     ∃ resp err,
       Echo.handler sched env e c adapterRequest = returns (resp, err)).
Proof.
  unfold Echo.handler. split.
  - intros resp err.
    destruct (Proxy sched env adapterRequest c e) as [[ar' [[aresp|] [e'|]]]| |]
      eqn:Hp; try discriminate.
    + apply Proxy_returns_response in Hp as (? & _). discriminate.
    + intros [= <- <-]. right. exists ar', aresp.
      split; [reflexivity|]. split; [reflexivity|]. split; [reflexivity|].
      apply Proxy_returns_response in Hp as (_ & req & w & _ & _ & Hr).
      apply recorded_response_fields in Hr as (Hcode & _ & _ & Hh & Hd).
      cbn [fst AdapterResponse.ALBTargetGroupResponse
           Events.ALBTargetGroupResponse.StatusCode
           Events.ALBTargetGroupResponse.StatusDescription
           Events.ALBTargetGroupResponse.Headers]. auto.
    + intros [= <- <-]. left.
      rewrite Proxy_eq in Hp.
      destruct (ToRequest_result sched env adapterRequest)
        as [[req Hreq]|[e'' He]].
      * rewrite Hreq in Hp. unfold Ok in Hp.
        destruct (e _ _) as [w| |]; try discriminate.
        destruct (recorded_response_translates w) as [resp' Hresp].
        rewrite Hresp in Hp. discriminate.
      * rewrite He in Hp. injection Hp as _ <-. exists e''. auto.
  - intros Hall. rewrite Proxy_eq.
    destruct (ToRequest_result sched env adapterRequest)
      as [[req Hreq]|[e'' He]].
    + rewrite Hreq. unfold Ok.
      destruct (Hall (Http.WithContext req c) Httptest.NewRecorder) as [w Hw].
      rewrite Hw.
      destruct (recorded_response_translates w) as [resp' Hresp].
      rewrite Hresp. unfold Ok. eauto.
    + rewrite He. unfold Fail. eauto.
Qed.


End examples_more.

Section independence.
Context `{Platform}.

(** X20. Neither the environment nor the stored base path has any effect
    on what [ToRequest] returns or on the path it leaves in its receiver:
    the path resolved from them is computed and then not used. *)
Theorem ToRequest_independent_of_host_and_base_path sched env env'
    (ar : AdapterRequest.t) (p : string) :
  (ToRequest sched env' (setStripBasePath ar p)).2 = (ToRequest sched env ar).2
  ∧ Path (ToRequest sched env' (setStripBasePath ar p)).1
    = Path (ToRequest sched env ar).1.
Proof.
  rewrite !ToRequest_eq.
  change (decodedBody (setStripBasePath ar p)) with (decodedBody ar).
  destruct (decodedBody ar); split; reflexivity.
Qed.

End independence.

(** * The further properties at concrete inputs *)

Lemma ToRequest_frame_at_v1 :
  (ToRequest noKeys ∅ versionedEvent).1 = versionedEvent
  ∧ (ToRequest searchSchedule ∅ searchEvent).1
    = setPath searchEvent
        (Path searchEvent +:+ querySuffix searchSchedule searchEvent).
Proof.
  split.
  - apply (proj2 (proj2 (ToRequest_frame noKeys ∅ versionedEvent)));
      reflexivity.
  - apply (proj1 (proj2 (ToRequest_frame searchSchedule ∅ searchEvent))
             (String.list_byte_of_string "hi")).
    reflexivity.
Defined.

Lemma ToRequest_errors_at_bad_method :
  (ToRequest noKeys ∅ badMethodEvent).2 = Fail (InvalidMethod "GE T").
Proof.
  apply (proj1 (proj2 (ToRequest_errors noKeys ∅ badMethodEvent)) []);
    reflexivity.
Defined.

Lemma ToRequest_request_fields_at_search :
  Http.Request.Method searchRequest = "GET"
  ∧ Http.Request.ContentLength searchRequest = 2
  ∧ ∃ ar' req,
      ToRequest noKeys ∅ (@event plainPlatform tt "/" "") = (ar', Ok req)
      ∧ Http.Request.Method req = "GET".
Proof.
  destruct (ToRequest_request_fields searchSchedule ∅ searchEvent
              (setPath searchEvent "/search?tag=a%26b&tag=c+d") searchRequest)
    as (Hm & _ & _ & _ & Hlen & _).
  - vm_compute. reflexivity.
  - split; [exact Hm|]. split; [exact Hlen|].
    eexists _, _. split; [vm_compute; reflexivity|].
    eapply (ToRequest_request_fields noKeys ∅ (@event plainPlatform tt "/" "")).
    + vm_compute. reflexivity.
    + reflexivity.
Defined.

Lemma Proxy_translation_failure_at_broken :
  Proxy searchSchedule ∅ brokenEvent tt
    (fun _ _ => blocks : outcome Httptest.ResponseRecorder)
  = returns (brokenEvent,
             Fail (Wrap (CorruptInputError 0)
                     "Unable to convert AdapterRequest to http.Request")).
Proof.
  apply (Proxy_translation_failure searchSchedule ∅ brokenEvent tt
           (CorruptInputError 0)).
  vm_compute. reflexivity.
Defined.

Lemma response_body_is_text_at_binary :
  Utf8.Valid (String.list_byte_of_string "//4=") = true.
Proof.
  apply (response_body_is_text binaryResponse
           {| AdapterResponse.StatusCode := 200;
              AdapterResponse.StatusDescription := "";
              AdapterResponse.Headers := ∅;
              AdapterResponse.MultiValueHeaders :=
                {[ "Content-Type" := ["text/plain"] ]};
              AdapterResponse.Body := "//4=";
              AdapterResponse.IsBase64Encoded := true |}).
  vm_compute. reflexivity.
Defined.

Lemma ascii_body_stays_text_at_text :
  ∃ resp,
    AdapterResponse.NewAdapterResponse textResponse = Ok resp
    ∧ AdapterResponse.IsBase64Encoded resp = false
    ∧ AdapterResponse.Body resp = "Hello World!".
Proof.
  apply (ascii_body_stays_text textResponse).
  - reflexivity.
  - vm_compute. repeat constructor.
Defined.

Lemma response_body_round_trip_at_binary :
  ∃ ar' req,
    ToRequest noKeys ∅ (setBody versionedEvent "//4=" true) = (ar', Ok req)
    ∧ Http.Request.Body req = [xff; xfe].
Proof.
  eexists _, _. split; [vm_compute; reflexivity|].
  apply (response_body_round_trip noKeys ∅ binaryResponse
           {| AdapterResponse.StatusCode := 200;
              AdapterResponse.StatusDescription := "";
              AdapterResponse.Headers := ∅;
              AdapterResponse.MultiValueHeaders :=
                {[ "Content-Type" := ["text/plain"] ]};
              AdapterResponse.Body := "//4=";
              AdapterResponse.IsBase64Encoded := true |}
           versionedEvent (setBody versionedEvent "//4=" true)).
  - vm_compute. reflexivity.
  - vm_compute. reflexivity.
Defined.

Lemma Proxy_reports_recorder_at_root :
  ∃ resp,
    Proxy noKeys helloEnv (@event plainPlatform tt "/" "GET") tt
      noContentHandler = returns (@event plainPlatform tt "/" "GET", Ok resp)
    ∧ AdapterResponse.StatusCode resp = 204.
Proof.
  eexists. split; [vm_compute; reflexivity|].
  edestruct (Proxy_reports_recorder noKeys helloEnv
               (@event plainPlatform tt "/" "GET")
               (@event plainPlatform tt "/" "GET") tt noContentHandler)
    as (req & w & _ & Hw & _ & Hcode & _).
  - vm_compute. reflexivity.
  - injection Hw as <-. exact Hcode.
Defined.

Lemma Proxy_silent_handler_at_root :
  ∃ ar resp,
    Proxy noKeys helloEnv (@event plainPlatform tt "/" "GET") tt silentHandler
      = returns (ar, Ok resp)
    ∧ AdapterResponse.StatusCode resp = 200
    ∧ AdapterResponse.Body resp = "".
Proof.
  eexists _, _. split.
  - eapply (Proxy_silent_handler noKeys helloEnv
              (@event plainPlatform tt "/" "GET") tt silentHandler).
    + vm_compute. reflexivity.
    + reflexivity.
  - split; reflexivity.
Defined.

Lemma GorillaMux_handler_result_at_root :
  ∃ resp err,
    GorillaMux.handler noKeys helloEnv noContentHandler tt
      (@event plainPlatform tt "/" "GET") = returns (resp, err).
Proof.
  apply (proj2 (GorillaMux_handler_result noKeys helloEnv noContentHandler tt
                  (@event plainPlatform tt "/" "GET"))).
  exact noContentHandler_returns.
Defined.

Lemma Echo_handler_result_at_root :
  ∃ resp err,
    Echo.handler noKeys helloEnv noContentHandler tt
      (@event plainPlatform tt "/" "GET") = returns (resp, err).
Proof.
  apply (proj2 (Echo_handler_result noKeys helloEnv noContentHandler tt
                  (@event plainPlatform tt "/" "GET"))).
  exact noContentHandler_returns.
Defined.

Lemma base64_body_ignores_line_breaks_at_wrapped :
  ∃ req,
    (ToRequest noKeys ∅ wrappedEvent).2 = Ok req
    ∧ (ToRequest noKeys ∅ (setBody wrappedEvent "//4=" true)).2 = Ok req.
Proof.
  eexists. split; [vm_compute; reflexivity|].
  apply (proj1 (base64_body_ignores_line_breaks noKeys ∅ wrappedEvent "//4="
                  eq_refl eq_refl _)).
  vm_compute. reflexivity.
Defined.

Lemma ToRequest_header_values_at_search :
  Http.values (Http.Request.Header searchRequest) "Content-Type"
  = ["text/plain"].
Proof.
  apply (ToRequest_header_values searchSchedule ∅ searchEvent
           (setPath searchEvent "/search?tag=a%26b&tag=c+d") searchRequest).
  vm_compute. reflexivity.
Defined.

Lemma ToRequest_header_keys_canonical_at_search :
  Textproto.CanonicalMIMEHeaderKey "Content-Type" = "Content-Type"
  ∧ ["text/plain"] ≠ [].
Proof.
  apply (ToRequest_header_keys_canonical searchSchedule ∅ searchEvent
           (setPath searchEvent "/search?tag=a%26b&tag=c+d") searchRequest).
  - vm_compute. reflexivity.
  - vm_compute. reflexivity.
Defined.

Lemma query_string_determines_pairs_at_search :
  flatten ((fun k => (k, default []
              (MultiValueQueryStringParameters searchEvent !! k))) <$> ["tag"])
  = flatten ((fun k => (k, default []
                (MultiValueQueryStringParameters brokenEvent !! k))) <$> ["tag"]).
Proof.
  apply (proj1 (query_string_determines_pairs searchEvent brokenEvent
                  ["tag"] ["tag"])).
  vm_compute. reflexivity.
Defined.

Lemma empty_value_lists_give_bare_question_mark_at_list :
  ∃ ar' req,
    ToRequest (mkSchedule ["tag"] ["page"] []) ∅ emptyListEvent = (ar', Ok req)
    ∧ Http.Request.RawURL req = Path emptyListEvent +:+ "?".
Proof.
  eexists _, _. split; [vm_compute; reflexivity|].
  eapply (empty_value_lists_give_bare_question_mark
            (mkSchedule ["tag"] ["page"] []) ∅ emptyListEvent).
  - vm_compute. lia.
  - intros k vs. unfold emptyListEvent.
    cbn [MultiValueQueryStringParameters].
    intros [_ <-]%lookup_singleton_Some. reflexivity.
  - vm_compute. reflexivity.
Defined.

Lemma StripBasePath_stored_at_slash :
  (StripBasePath searchEvent "/").2 = "".
Proof.
  apply (proj2 (proj2 (proj2 (StripBasePath_stored searchEvent "/")))).
  right. reflexivity.
Defined.

Lemma base_path_spellings_at_v1 :
  StripBasePath versionedEvent "/v1/"
  = (setStripBasePath versionedEvent "/v1", "/v1")
  ∧ resolvedPath (StripBasePath versionedEvent "v1").1 = "/items".
Proof.
  destruct (base_path_spellings versionedEvent "v1" eq_refl eq_refl eq_refl)
    as (Hplain & _ & _ & Hboth & Hresolve).
  split.
  - exact (eq_trans Hboth Hplain).
  - exact (Hresolve "/items" eq_refl).
Defined.

